(** * WebUSB connection and flashing orchestration of the micro:bit editor

    A shallow embedding of [src/device/microbit.ts]: the connection status
    state machine of [MicrobitWebUSBConnection], its flash orchestration,
    the device filter matcher and the error classifier [enrichedError].

    The device access driver ([PartialFlashing], partial-flashing.ts), the
    board identity parser ([BoardId.parse], board-id.ts), the host object
    [navigator.usb] and the data source are collaborators whose code is not
    part of the embedded file; they are taken as parameters.

    The module [SignatureHelp] embeds the state reducer and the label
    formatting of [src/editor/codemirror/language-server/signatureHelp.ts]. *)

From Stdlib Require Import ZArith.
From stdpp Require Import base option list strings gmap.

Local Open Scope string_scope.
Local Open Scope Z_scope.
Local Open Scope list_scope.

(** ** Data model *)

(** [enum ConnectionErrorType]. *)
Inductive ConnectionErrorType : Type :=
  | UNABLE_TO_CLAIM_INTERFACE
  | UNKNOWN.

(** [enum ConnectionStatus]. *)
Inductive ConnectionStatus : Type :=
  | NOT_SUPPORTED
  | NO_AUTHORIZED_DEVICE
  | NOT_CONNECTED
  | CONNECTED.

(** [enum ConnectionMode]. *)
Inductive ConnectionMode : Type :=
  | INTERACTIVE
  | NON_INTERACTIVE.

#[global] Instance ConnectionErrorType_eq_dec : EqDecision ConnectionErrorType.
Proof. solve_decision. Defined.

#[global] Instance ConnectionStatus_eq_dec : EqDecision ConnectionStatus.
Proof. solve_decision. Defined.

#[global] Instance ConnectionMode_eq_dec : EqDecision ConnectionMode.
Proof. solve_decision. Defined.

(** The two fields of a WebUSB [USBDeviceFilter] that the code reads.  [None]
    is a field whose [typeof] is ["undefined"]. *)
Record USBDeviceFilter : Type := mkFilter {
  filter_vendorId : option Z;
  filter_productId : option Z;
}.

(** A [USBDevice].  [deviceRef] stands for the identity of the JavaScript
    object, which is what [===] compares in [handleDisconnect]. *)
Record USBDevice : Type := mkDevice {
  vendorId : Z;
  productId : Z;
  deviceRef : nat;
}.

(** [interface MicrobitConnectionOptions]. *)
Record MicrobitConnectionOptions : Type := mkOptions {
  autoConnect : bool;
  deviceFilters : list USBDeviceFilter;
}.

(** [Partial<MicrobitConnectionOptions>], the constructor's argument: [None]
    is a key that the caller left out. *)
Record PartialOptions : Type := mkPartialOptions {
  opt_autoConnect : option bool;
  opt_deviceFilters : option (list USBDeviceFilter);
}.

(** The event names. *)
Definition EVENT_STATUS : string := "status".
Definition EVENT_SERIAL_DATA : string := "serial_data".
Definition EVENT_SERIAL_ERROR : string := "serial_error".
Definition EVENT_AUTOCONNECT_ERROR : string := "autoconnect_error".
Definition EVENT_PROGRESS : string := "progress".

(** ** JavaScript errors and thrown values *)

(** An [Error] object, as far as the code looks at it: its [message] and the
    [type] property that [enrichedError] assigns ([None] is [undefined]). *)
Record JsError : Type := mkError {
  message : string;
  type : option ConnectionErrorType;
}.

(** What a [throw] or a rejected promise carries: an instance of [Error], or
    any other value, kept as the text [new Error(e)] stores as its message. *)
Inductive Thrown : Type :=
  | ThrownError (e : JsError)
  | ThrownValue (text : string).

(** [new Error(m)]: an [undefined] argument leaves the message empty. *)
Definition new_Error (m : option string) : JsError :=
  {| message := default "" m; type := None |}.

(** ** The error classifier *)

(** An entry of the object literal [specialCases]. *)
Record SpecialCase : Type := mkSpecialCase {
  case_type : ConnectionErrorType;
  case_message : string;
}.

(** The own properties of [specialCases]. *)
Definition specialCases : gmap string SpecialCase :=
  {[ "Unable to claim interface." :=
       {| case_type := UNABLE_TO_CLAIM_INTERFACE;
          case_message :=
            "Cannot connect. Check no other browser tabs or windows are using the micro:bit." |} ]}.

(** [specialCases] is an object literal, so its prototype is
    [Object.prototype]; these are the property names found there. *)
Definition Object_prototype : list string :=
  [ "constructor"; "hasOwnProperty"; "isPrototypeOf"; "propertyIsEnumerable";
    "toLocaleString"; "toString"; "valueOf"; "__proto__";
    "__defineGetter__"; "__defineSetter__"; "__lookupGetter__"; "__lookupSetter__" ].

(** The value of a property read [specialCases[k]]. *)
Inductive Property : Type :=
  | OwnCase (c : SpecialCase)
  | Inherited (name : string).

(** [specialCases[k]]: own properties first, then the prototype; [None] is
    [undefined].  Every value found is an object or a function, hence truthy. *)
Definition specialCases_get (k : string) : option Property :=
  match specialCases !! k with
  | Some c => Some (OwnCase c)
  | None => if decide (k ∈ Object_prototype) then Some (Inherited k) else None
  end.

(** [special.message] and [special.type]: the members of [Object.prototype]
    have neither property. *)
Definition special_message (p : Property) : option string :=
  match p with
  | OwnCase c => Some (case_message c)
  | Inherited _ => None
  end.

Definition special_type (p : Property) : option ConnectionErrorType :=
  match p with
  | OwnCase c => Some (case_type c)
  | Inherited _ => None
  end.

(** [enrichedError]. *)
Definition enrichedError (e : Thrown) : JsError :=
  let e :=
    match e with
    | ThrownError e => e
    | ThrownValue text => new_Error (Some text)
    end in
  match specialCases_get (message e) with
  | Some special =>
      let e := new_Error (special_message special) in
      {| message := message e; type := special_type special |}
  | None =>
      {| message := message e; type := Some UNKNOWN |}
  end.

(** ** The device matcher *)

(** [matchesDeviceFilter], over the configured filters. *)
Definition matchesDeviceFilter (filters : list USBDeviceFilter) (device : USBDevice) : bool :=
  existsb
    (fun filter =>
       (match filter_productId filter with
        | None => true
        | Some p => (p =? productId device)%Z
        end)
       &&
       (match filter_vendorId filter with
        | None => true
        | Some v => (v =? vendorId device)%Z
        end))
    filters.

(** ** Collaborators *)

(** What a [FlashDataSource] resolves to: the flash bytes and the whole
    Intel HEX. *)
Record FlashData : Type := mkFlashData {
  bytes : list Byte.byte;
  intelHex : string;
}.

(** The interface of [PartialFlashing] that the connection uses, over a
    driver state [D].  A promise resolves ([inr]) or rejects ([inl]); the
    flash operations also return the percentages they passed to the progress
    callback before settling. *)
Class PartialFlashing (D : Type) : Type := {
  (* [disconnectDapAsync()] *)
  disconnectDapAsync : D → (Thrown + unit) * D;
  (* [connectDapAsync()] *)
  connectDapAsync : D → (Thrown + unit) * D;
  (* the read [dapwrapper.boardId], which throws while there is no wrapper *)
  dapwrapper_boardId : D → Thrown + string;
  (* the read [dapwrapper?.daplink?.device], [None] for [undefined] *)
  dapwrapper_daplink_device : D → option USBDevice;
  (* [flashAsync(bytes, intelHex, progress)] *)
  flashAsync : list Byte.byte → string → D → list Z * (Thrown + unit) * D;
  (* [fullFlashAsync(intelHex, progress)] *)
  fullFlashAsync : string → D → list Z * (Thrown + unit) * D;
}.

(** [BoardId.parse], over a type [B] of board identities. *)
Class BoardIdParser (B : Type) : Type := {
  BoardId_parse : string → Thrown + B;
}.

(** ** The connection object and its effects *)

(** A call that crosses the boundary of the connection object. *)
Inductive Call (B : Type) : Type :=
  | CallDisconnectDap
  | CallConnectDap
  | CallParseBoardId (raw : string)
  | CallDataSource (boardId : B)
  | CallFlash (flashBytes : list Byte.byte) (hex : string)
  | CallFullFlash (hex : string)
  | CallProgress (percentage : option Z).

Arguments CallDisconnectDap {B}.
Arguments CallConnectDap {B}.
Arguments CallParseBoardId {B} raw.
Arguments CallDataSource {B} boardId.
Arguments CallFlash {B} flashBytes hex.
Arguments CallFullFlash {B} hex.
Arguments CallProgress {B} percentage.

(** The argument of an [emit]. *)
Inductive Payload : Type :=
  | StatusPayload (s : ConnectionStatus)
  | ErrorPayload (e : Thrown).

(** The fields of a [MicrobitWebUSBConnection], the host's [navigator.usb]
    ([None] when absent, else the devices [getDevices()] resolves to), and two
    logs: what was emitted, and the boundary calls made. *)
Record State (D B : Type) : Type := mkState {
  status : ConnectionStatus;
  connection : D;
  options : MicrobitConnectionOptions;
  navigator_usb : option (list USBDevice);
  emitted : list (string * Payload);
  calls : list (Call B);
}.

Arguments mkState {D B}.
Arguments status {D B}.
Arguments connection {D B}.
Arguments options {D B}.
Arguments navigator_usb {D B}.
Arguments emitted {D B}.
Arguments calls {D B}.

(** The data source handed to [flash]. *)
Definition FlashDataSource (B : Type) : Type := B → Thrown + FlashData.

Section Connection.
Context {D B : Type} `{!PartialFlashing D} `{!BoardIdParser B}.

(** A method body: it runs on the object's state and either returns or
    throws; what it changed before throwing stays changed. *)
Definition Conn (A : Type) : Type := State D B → (Thrown + A) * State D B.

#[export] Instance Conn_ret : MRet Conn := λ A a st, (inr a, st).

#[export] Instance Conn_bind : MBind Conn := λ A A' k m st,
  match m st with
  | (inl e, st') => (inl e, st')
  | (inr a, st') => k a st'
  end.

Definition throw {A : Type} (e : Thrown) : Conn A := λ st, (inl e, st).

(** [p.catch(h)] on a promise whose value is not used. *)
Definition catch {A : Type} (m : Conn A) (h : Thrown → Conn unit) : Conn unit := λ st,
  match m st with
  | (inl e, st') => h e st'
  | (inr _, st') => (inr (), st')
  end.

Definition set_status (s : ConnectionStatus) (st : State D B) : State D B :=
  mkState s (connection st) (options st) (navigator_usb st) (emitted st) (calls st).

Definition set_connection (d : D) (st : State D B) : State D B :=
  mkState (status st) d (options st) (navigator_usb st) (emitted st) (calls st).

Definition add_emitted (ev : string * Payload) (st : State D B) : State D B :=
  mkState (status st) (connection st) (options st) (navigator_usb st)
          (emitted st ++ [ev]) (calls st).

Definition add_calls (cs : list (Call B)) (st : State D B) : State D B :=
  mkState (status st) (connection st) (options st) (navigator_usb st)
          (emitted st) (calls st ++ cs).

(** [this.emit(channel, payload)]. *)
Definition emit (channel : string) (payload : Payload) : Conn unit := λ st,
  (inr (), add_emitted (channel, payload) st).

Definition log (c : Call B) : Conn unit := λ st, (inr (), add_calls [c] st).

(** [progress(percentage)], on the callback in effect: [options.progress], or
    the default that does nothing.  The call is logged; the callback returns. *)
Definition progress (percentage : option Z) : Conn unit := log (CallProgress percentage).

(** [await this.connection.disconnectDapAsync()]. *)
Definition connection_disconnectDapAsync : Conn unit := λ st,
  let st := add_calls [CallDisconnectDap] st in
  let '(r, d) := disconnectDapAsync (connection st) in
  (r, set_connection d st).

(** [await this.connection.connectDapAsync()]. *)
Definition connection_connectDapAsync : Conn unit := λ st,
  let st := add_calls [CallConnectDap] st in
  let '(r, d) := connectDapAsync (connection st) in
  (r, set_connection d st).

(** [await this.connection.flashAsync(bytes, intelHex, progress)]: the
    driver's calls to [progress] are logged in the order it made them. *)
Definition connection_flashAsync (flashBytes : list Byte.byte) (hex : string) : Conn unit := λ st,
  let st := add_calls [CallFlash flashBytes hex] st in
  let '(reports, r, d) := flashAsync flashBytes hex (connection st) in
  (r, set_connection d (add_calls (map (λ p, CallProgress (Some p)) reports) st)).

(** [await this.connection.fullFlashAsync(intelHex, progress)]. *)
Definition connection_fullFlashAsync (hex : string) : Conn unit := λ st,
  let st := add_calls [CallFullFlash hex] st in
  let '(reports, r, d) := fullFlashAsync hex (connection st) in
  (r, set_connection d (add_calls (map (λ p, CallProgress (Some p)) reports) st)).

(** [BoardId.parse(this.connection.dapwrapper.boardId)]. *)
Definition parse_boardId : Conn B := λ st,
  match dapwrapper_boardId (connection st) with
  | inl e => (inl e, st)
  | inr raw => (BoardId_parse raw, add_calls [CallParseBoardId raw] st)
  end.

(** [await dataSource(boardId)]. *)
Definition call_dataSource (dataSource : FlashDataSource B) (boardId : B) : Conn FlashData := λ st,
  (dataSource boardId, add_calls [CallDataSource boardId] st).

(** Reads of [this.status] and [this.options]. *)
Definition this_status : Conn ConnectionStatus := λ st, (inr (status st), st).

Definition this_options : Conn MicrobitConnectionOptions := λ st, (inr (options st), st).

(** [withEnrichedErrors]. *)
Definition withEnrichedErrors {A : Type} (f : Conn A) : Conn A := λ st,
  match f st with
  | (inl e, st') => (inl (ThrownError (enrichedError e)), st')
  | (inr a, st') => (inr a, st')
  end.

(** [setStatus]. *)
Definition setStatus (newStatus : ConnectionStatus) : Conn unit := λ st,
  let st := set_status newStatus st in
  emit EVENT_STATUS (StatusPayload (status st)) st.

(** [assertSupported]. *)
Definition assertSupported : Conn unit := λ st,
  match navigator_usb st with
  | None => throw (ThrownError (new_Error (Some "Unsupported. Check connection status first."))) st
  | Some _ => (inr (), st)
  end.

(** [connectInternal]. *)
Definition connectInternal (mode : ConnectionMode) : Conn ConnectionStatus :=
  assertSupported ;;
  connection_connectDapAsync ;;
  mret CONNECTED.

(** [connect]. *)
Definition connect (mode : ConnectionMode) : Conn ConnectionStatus :=
  withEnrichedErrors (
    s ← connectInternal mode;
    setStatus s ;;
    this_status).

(** [flash]. *)
Definition flash (dataSource : FlashDataSource B) (partial : bool) : Conn unit :=
  connection_disconnectDapAsync ;;
  connection_connectDapAsync ;;
  boardId ← parse_boardId;
  data ← call_dataSource dataSource boardId;
  (if partial
   then connection_flashAsync (bytes data) (intelHex data)
   else connection_fullFlashAsync (intelHex data)) ;;
  progress None.

(** [disconnect]. *)
Definition disconnect : Conn unit :=
  withEnrichedErrors (
    connection_disconnectDapAsync ;;
    setStatus NOT_CONNECTED).

(** [this.matchesDeviceFilter]. *)
Definition this_matchesDeviceFilter (st : State D B) (device : USBDevice) : bool :=
  matchesDeviceFilter (deviceFilters (options st)) device.

(** [getPairedDevice]. *)
Definition getPairedDevice : Conn (option USBDevice) := λ st,
  match navigator_usb st with
  | None => (inr None, st)
  | Some paired =>
      let devices := filter (λ d, this_matchesDeviceFilter st d = true) paired in
      (inr (match devices with [device] => Some device | _ => None end), st)
  end.

(** [initialize].  The connect it starts is not awaited: in the source the
    promise of [initialize] resolves once the status [NOT_CONNECTED] is set,
    and the connect settles later.  The model lets that connect run to its
    end here, before anything else happens: the result is the one of
    [initialize], and the state is the one reached once the connect has
    settled, not the one at the return. *)
Definition initialize : Conn unit :=
  device ← getPairedDevice;
  match device with
  | Some _ =>
      setStatus NOT_CONNECTED ;;
      opts ← this_options;
      if autoConnect opts
      then catch (connect NON_INTERACTIVE)
                 (λ e, emit EVENT_AUTOCONNECT_ERROR (ErrorPayload e))
      else mret ()
  | None => mret ()
  end.

(** [handleConnect], on the device of the event.  As in [initialize], the
    connect it starts is not awaited: the source's handler returns with the
    status [NOT_CONNECTED] and the connect settles later.  The model lets
    that connect run to its end here, before anything else happens: the
    state is the one reached once the connect has settled, not the one at
    the return of the handler. *)
Definition handleConnect (device : USBDevice) : Conn unit := λ st,
  if this_matchesDeviceFilter st device
  then
    if decide (status st = NO_AUTHORIZED_DEVICE)
    then
      (setStatus NOT_CONNECTED ;;
       opts ← this_options;
       if autoConnect opts
       then catch (connect NON_INTERACTIVE)
                  (λ e, emit EVENT_SERIAL_ERROR (ErrorPayload e))
       else mret ()) st
    else (inr (), st)
  else (inr (), st).

(** [handleDisconnect], on the device of the event. *)
Definition handleDisconnect (device : USBDevice) : Conn unit := λ st,
  if decide (Some (deviceRef device)
             = deviceRef <$> dapwrapper_daplink_device (connection st))
  then setStatus NO_AUTHORIZED_DEVICE st
  else (inr (), st).

(** The field initialisers and the constructor, on a host whose
    [navigator.usb] is [usb], around a new driver [d]. *)
Definition new_MicrobitWebUSBConnection
    (usb : option (list USBDevice)) (d : D) (opts : PartialOptions) : State D B :=
  {| status := match usb with Some _ => NO_AUTHORIZED_DEVICE | None => NOT_SUPPORTED end;
     connection := d;
     options :=
       {| autoConnect := default true (opt_autoConnect opts);
          deviceFilters :=
            default [ {| filter_vendorId := Some 0x0d28; filter_productId := Some 0x0204 |} ]
                    (opt_deviceFilters opts) |};
     navigator_usb := usb;
     emitted := [];
     calls := [] |}.

(** ** Sequences of operations *)

Inductive Operation : Type :=
  | OpInitialize
  | OpConnect (mode : ConnectionMode)
  | OpDisconnect
  | OpFlash (dataSource : FlashDataSource B) (partial : bool)
  | OpAttach (device : USBDevice)
  | OpDetach (device : USBDevice).

(** The state an operation leaves, whether it returned or threw, once a
    connect it started without awaiting it has settled. *)
Definition perform (op : Operation) (st : State D B) : State D B :=
  match op with
  | OpInitialize => (initialize st).2
  | OpConnect mode => (connect mode st).2
  | OpDisconnect => (disconnect st).2
  | OpFlash dataSource partial => (flash dataSource partial st).2
  | OpAttach device => (handleConnect device st).2
  | OpDetach device => (handleDisconnect device st).2
  end.

Definition run (ops : list Operation) (st : State D B) : State D B :=
  foldl (λ st op, perform op st) st ops.

End Connection.

Arguments Operation : clear implicits.
Arguments Conn : clear implicits.

(** ** Properties used in the statements *)

Section Observations.
Context {D B : Type} `{!PartialFlashing D} `{!BoardIdParser B}.

(** A call of the progress callback without a percentage. *)
Definition is_terminal (c : Call B) : bool :=
  match c with
  | CallProgress None => true
  | _ => false
  end.

Definition terminal_calls (cs : list (Call B)) : nat :=
  length (List.filter is_terminal cs).

(** Two outcomes of a data source that differ at most in the flash bytes. *)
Definition same_intelHex (r1 r2 : Thrown + FlashData) : Prop :=
  match r1, r2 with
  | inr d1, inr d2 => intelHex d1 = intelHex d2
  | inl e1, inl e2 => e1 = e2
  | _, _ => False
  end.

(** What an operation does not touch when it changes neither the status nor
    the emitter. *)
Definition same_status (st st' : State D B) : Prop :=
  status st' = status st ∧ emitted st' = emitted st ∧
  options st' = options st ∧ navigator_usb st' = navigator_usb st.

Definition status_neutral {A : Type} (m : Conn D B A) : Prop :=
  ∀ st, same_status st (m st).2.

(** The steps of a sequence after which a status of [NOT_SUPPORTED] is kept:
    every [disconnect] of the sequence meets a teardown that rejects, and
    every detach notification is for a device other than the driver's. *)
Definition keeps_status (op : Operation B) (st : State D B) : bool :=
  match op with
  | OpDisconnect =>
      match (disconnectDapAsync (connection st)).1 with
      | inl _ => true
      | inr _ => false
      end
  | OpDetach device =>
      bool_decide (Some (deviceRef device)
                   ≠ deviceRef <$> dapwrapper_daplink_device (connection st))
  | _ => true
  end.

Fixpoint keep_status (ops : list (Operation B)) (st : State D B) : bool :=
  match ops with
  | [] => true
  | op :: ops => keeps_status op st && keep_status ops (perform op st)
  end.

End Observations.

(** The kinds of the specification's error taxonomy, and the kind each tag of
    [ConnectionErrorType] stands for. *)
Inductive SpecErrorKind : Type :=
  | NotSupported
  | InterfaceClaimFailed
  | Unknown.

Definition spec_kind (t : ConnectionErrorType) : SpecErrorKind :=
  match t with
  | UNABLE_TO_CLAIM_INTERFACE => InterfaceClaimFailed
  | UNKNOWN => Unknown
  end.

(** ** Sample collaborators *)

(** A driver that answers every call from a fixed script. *)
Record Script : Type := mkScript {
  on_disconnect : Thrown + unit;
  on_connect : Thrown + unit;
  script_boardId : Thrown + string;
  script_device : option USBDevice;
  on_flash : list Z * (Thrown + unit);
  on_fullFlash : list Z * (Thrown + unit);
}.

#[global] Instance Script_PartialFlashing : PartialFlashing Script := {|
  disconnectDapAsync d := (on_disconnect d, d);
  connectDapAsync d := (on_connect d, d);
  dapwrapper_boardId d := script_boardId d;
  dapwrapper_daplink_device d := script_device d;
  flashAsync _ _ d := (on_flash d, d);
  fullFlashAsync _ d := (on_fullFlash d, d);
|}.

(** A parser that accepts every non-empty identifier as it is. *)
#[global] Instance Sample_BoardIdParser : BoardIdParser string := {|
  BoardId_parse raw :=
    if decide (raw = "")
    then inl (ThrownError (new_Error (Some "Could not parse board ID")))
    else inr raw;
|}.

Definition microbit : USBDevice :=
  {| vendorId := 0x0d28; productId := 0x0204; deviceRef := 1 |}.

(** A driver on which every call succeeds. *)
Definition working : Script :=
  {| on_disconnect := inr ();
     on_connect := inr ();
     script_boardId := inr "9904";
     script_device := Some microbit;
     on_flash := ([0; 50; 100], inr ());
     on_fullFlash := ([0; 100], inr ()) |}.

(** A driver whose session cannot be established: [connectDapAsync] rejects
    with [e]. *)
Definition refusing (e : Thrown) : Script :=
  {| on_disconnect := inr ();
     on_connect := inl e;
     script_boardId := inl (ThrownValue "TypeError");
     script_device := None;
     on_flash := ([], inr ());
     on_fullFlash := ([], inr ()) |}.

(** A driver whose teardown rejects with [e]. *)
Definition stuck (e : Thrown) : Script :=
  {| on_disconnect := inl e;
     on_connect := inr ();
     script_boardId := inr "9904";
     script_device := Some microbit;
     on_flash := ([], inr ());
     on_fullFlash := ([], inr ()) |}.

(** A driver that holds no session: the teardown has nothing to do, and a
    session cannot be established. *)
Definition idle : Script :=
  refusing (ThrownError {| message := "No device selected."; type := None |}).

Definition other_device : USBDevice :=
  {| vendorId := 0x0d28; productId := 0x0204; deviceRef := 2 |}.

Definition claimed : Thrown :=
  ThrownError {| message := "Unable to claim interface."; type := None |}.

Definition sample_data : FlashData :=
  {| bytes := [Byte.x01; Byte.x02]; intelHex := ":00000001FF" |}.

Definition sample_dataSource : FlashDataSource string := λ _, inr sample_data.

(** The same data source with other flash bytes. *)
Definition other_dataSource : FlashDataSource string :=
  λ _, inr {| bytes := [Byte.xff]; intelHex := ":00000001FF" |}.

Definition no_options : PartialOptions :=
  {| opt_autoConnect := None; opt_deviceFilters := None |}.

(** A connection in the given status around the driver [d], on a host with
    WebUSB and no paired device. *)
Definition connection_in (s : ConnectionStatus) (d : Script) : State Script string :=
  set_status s (new_MicrobitWebUSBConnection (Some []) d no_options).

(** A new connection on a host without WebUSB. *)
Definition unsupported (d : Script) : State Script string :=
  new_MicrobitWebUSBConnection None d no_options.

(** ** Further observations *)

(** The message [enrichedError] reads from what was thrown. *)
Definition thrown_message (e : Thrown) : string :=
  match e with
  | ThrownError e => message e
  | ThrownValue text => text
  end.

(** The status a listener on the status channel holds after the emissions
    [evs], when it held [s] before them. *)
Definition tracked_status (s : ConnectionStatus) (evs : list (string * Payload)) : ConnectionStatus :=
  foldl
    (λ s ev,
       match ev with
       | (channel, StatusPayload s') => if decide (channel = EVENT_STATUS) then s' else s
       | _ => s
       end)
    s evs.

Section Notifications.
Context {D B : Type} `{!PartialFlashing D} `{!BoardIdParser B}.

(** From [st] to [st'] the emitter has only been appended to, the status
    channel has carried every change of the status, and the options and the
    host are as they were. *)
Definition notifies (st st' : State D B) : Prop :=
  ∃ evs,
    emitted st' = emitted st ++ evs ∧
    tracked_status (status st) evs = status st' ∧
    options st' = options st ∧
    navigator_usb st' = navigator_usb st.

Definition notifying {A : Type} (m : Conn D B A) : Prop :=
  ∀ st, notifies st (m st).2.

End Notifications.

(** ** Further sample collaborators *)

(** A driver whose board identifier does not parse. *)
Definition unidentified : Script :=
  {| on_disconnect := inr ();
     on_connect := inr ();
     script_boardId := inr "";
     script_device := Some microbit;
     on_flash := ([], inr ());
     on_fullFlash := ([], inr ()) |}.

(** A driver whose flash operations reject with [e] after some progress. *)
Definition failing_flash (e : Thrown) : Script :=
  {| on_disconnect := inr ();
     on_connect := inr ();
     script_boardId := inr "9904";
     script_device := Some microbit;
     on_flash := ([0; 10], inl e);
     on_fullFlash := ([0; 10], inl e) |}.

(** A data source that rejects. *)
Definition failing_dataSource : FlashDataSource string :=
  λ _, inl (ThrownValue "fetch failed").

(** A connection around the driver [d] on a host with WebUSB whose paired
    devices are [paired]. *)
Definition paired_connection (paired : list USBDevice) (d : Script) (opts : PartialOptions)
    : State Script string :=
  new_MicrobitWebUSBConnection (Some paired) d opts.

Definition no_autoConnect : PartialOptions :=
  {| opt_autoConnect := Some false; opt_deviceFilters := None |}.

(** A device of another vendor. *)
Definition foreign_device : USBDevice :=
  {| vendorId := 0x1234; productId := 0x0204; deviceRef := 3 |}.

(** ** Signature help *)

(** The state reducer and the label formatting of
    [src/editor/codemirror/language-server/signatureHelp.ts].  A string is the
    list of its UTF-16 code units, over a type [C] of code units; [Doc] is the
    type of documentation values and [H] the type of a language server's
    answer where its content is not looked at. *)
Module SignatureHelp.

Section Strings.
Context {C : Type}.

(** [String.prototype.substring], on integer arguments: each bound is clamped
    to the string, and the two are swapped when the first is the larger.  An
    absent end is the length. *)
Definition substring (s : list C) (start : Z) (end_ : option Z) : list C :=
  let len := Z.of_nat (length s) in
  let finalStart := Z.min (Z.max start 0) len in
  let finalEnd :=
    match end_ with
    | None => len
    | Some e => Z.min (Z.max e 0) len
    end in
  let from := Z.min finalStart finalEnd in
  let to := Z.max finalStart finalEnd in
  take (Z.to_nat (to - from)) (drop (Z.to_nat from) s).

(** The three parts [formatHighlightedParameter] cuts the label into:
    [before] (as it is when [nameFromSignature] reads it), [parameter] and
    [after]. *)
Definition label_parts (label : list C) (from to : Z) : list C * list C * list C :=
  let before := substring label 0 (Some from) in
  let parameter := substring label from (Some to) in
  let after := substring label to None in
  (before, parameter, after).

End Strings.

(** An array read [a[i]]: [undefined] out of range. *)
Definition array_get {A : Type} (a : list A) (i : Z) : option A :=
  if (i <? 0)%Z then None else a !! Z.to_nat i.

Section Protocol.
Context {C Doc : Type}.

(** The label of a [ParameterInformation]: a string, or a pair of offsets
    into the label of its signature. *)
Inductive ParameterLabel : Type :=
  | LabelString (s : list C)
  | LabelOffsets (from to : Z).

Record ParameterInformation : Type := mkParameter {
  parameter_label : ParameterLabel;
  parameter_documentation : option Doc;
}.

Record SignatureInformation : Type := mkSignature {
  label : list C;
  parameters : option (list ParameterInformation);
  documentation : option Doc;
  activeParameter : option Z;
}.

(** [activeSignature] is an index or [null] ([None]). *)
Record SignatureHelp : Type := mkHelp {
  signatures : list SignatureInformation;
  activeSignature : option Z;
}.

(** What [formatSignatureHelp] does: it throws, or calls
    [formatHighlightedParameter] on these arguments. *)
Inductive Formatted : Type :=
  | ThrowsTypeError
  | ThrowsNotSupported
  | Highlighted (label : list C) (from to : Z)
                (signatureDoc activeParameterDoc : option Doc).

(** [formatSignatureHelp], up to its call of [formatHighlightedParameter].
    Destructuring a signature that is [undefined] is a [TypeError]. *)
Definition formatSignatureHelp (help : SignatureHelp) : Formatted :=
  let activeSignature :=
    match activeSignature help with
    | None => array_get (signatures help) 0
    | Some activeSignatureIndex => array_get (signatures help) activeSignatureIndex
    end in
  match activeSignature with
  | None => ThrowsTypeError
  | Some signature =>
      let activeParameter :=
        match activeParameter signature, parameters signature with
        | Some activeParameterIndex, Some parameters =>
            array_get parameters activeParameterIndex
        | _, _ => None
        end in
      let activeParameterLabel := parameter_label <$> activeParameter in
      let activeParameterDoc := activeParameter ≫= parameter_documentation in
      match activeParameterLabel with
      | Some (LabelString _) => ThrowsNotSupported
      | Some (LabelOffsets from to) =>
          Highlighted (label signature) from to (documentation signature) activeParameterDoc
      | None =>
          let len := Z.of_nat (length (label signature)) in
          Highlighted (label signature) len len (documentation signature) activeParameterDoc
      end
  end.

End Protocol.

Arguments ParameterLabel : clear implicits.
Arguments ParameterInformation : clear implicits.
Arguments SignatureInformation : clear implicits.
Arguments SignatureHelp : clear implicits.
Arguments Formatted : clear implicits.

Section Reducer.
Context {H : Type}.

(** The tooltip the reducer builds; [tooltip_content] is the answer its
    [create] renders. *)
Record Tooltip : Type := mkTooltip {
  tooltip_pos : Z;
  tooltip_above : bool;
  tooltip_content : H;
}.

(** [interface SignatureHelpState]. *)
Record SignatureHelpState : Type := mkHelpState {
  state_tooltip : option Tooltip;
  state_result : option H;
}.

(** [interface SignatureChangeEffect]. *)
Record SignatureChangeEffect : Type := mkEffect {
  effect_pos : Z;
  effect_result : option H;
}.

(** The [create] of the state field. *)
Definition create : SignatureHelpState :=
  {| state_tooltip := None; state_result := None |}.

(** [reduceSignatureHelpState]. *)
Definition reduceSignatureHelpState
    (state : SignatureHelpState) (effect : SignatureChangeEffect) : SignatureHelpState :=
  match state_tooltip state, effect_result effect with
  | Some _, None => {| state_tooltip := None; state_result := None |}
  | _, Some result =>
      {| state_result := Some result;
         state_tooltip :=
           Some {| tooltip_pos := effect_pos effect;
                   tooltip_above := true;
                   tooltip_content := result |} |}
  | None, None => state
  end.

(** An effect of a transaction: one of [setSignatureHelpEffect], or another. *)
Inductive Effect : Type :=
  | SetSignatureHelp (value : SignatureChangeEffect)
  | OtherEffect.

(** The [update] of the state field, on the effects of a transaction. *)
Fixpoint update (state : SignatureHelpState) (effects : list Effect) : SignatureHelpState :=
  match effects with
  | [] => state
  | SetSignatureHelp value :: _ => reduceSignatureHelpState state value
  | OtherEffect :: effects => update state effects
  end.

(** The field after a sequence of transactions. *)
Definition updates (state : SignatureHelpState) (transactions : list (list Effect))
    : SignatureHelpState :=
  foldl update state transactions.


(** The tooltip is shown exactly when there is a result, and shows it. *)
Definition coherent (state : SignatureHelpState) : Prop :=
  match state_tooltip state, state_result state with
  | Some tooltip, Some result => tooltip_content tooltip = result ∧ tooltip_above tooltip = true
  | None, None => True
  | _, _ => False
  end.

End Reducer.

Arguments Tooltip : clear implicits.
Arguments SignatureHelpState : clear implicits.
Arguments SignatureChangeEffect : clear implicits.
Arguments Effect : clear implicits.

End SignatureHelp.

(** ** Sample answers of a language server *)

(** The signature [f(a, b)] with its second parameter active. *)
Definition sample_signature : SignatureHelp.SignatureInformation Ascii.ascii string :=
  {| SignatureHelp.label := String.list_ascii_of_string "f(a, b)";
     SignatureHelp.parameters :=
       Some [ {| SignatureHelp.parameter_label := SignatureHelp.LabelOffsets 2 3;
                 SignatureHelp.parameter_documentation := Some "the first" |};
              {| SignatureHelp.parameter_label := SignatureHelp.LabelOffsets 5 6;
                 SignatureHelp.parameter_documentation := Some "the second" |} ];
     SignatureHelp.documentation := Some "adds";
     SignatureHelp.activeParameter := Some 1 |}.

Definition sample_help : SignatureHelp.SignatureHelp Ascii.ascii string :=
  {| SignatureHelp.signatures := [sample_signature];
     SignatureHelp.activeSignature := None |}.

(** The same signature with no active parameter. *)
Definition bare_signature : SignatureHelp.SignatureInformation Ascii.ascii string :=
  {| SignatureHelp.label := String.list_ascii_of_string "f(a, b)";
     SignatureHelp.parameters := SignatureHelp.parameters sample_signature;
     SignatureHelp.documentation := Some "adds";
     SignatureHelp.activeParameter := None |}.

Definition bare_help : SignatureHelp.SignatureHelp Ascii.ascii string :=
  {| SignatureHelp.signatures := [sample_signature; bare_signature];
     SignatureHelp.activeSignature := Some 1 |}.

(** ** Helper facts *)

Section Correctness.
Context {D B : Type} `{!PartialFlashing D} `{!BoardIdParser B}.
Implicit Types (st : State D B) (dataSource : FlashDataSource B).

Lemma same_status_refl st : same_status st st.
Proof. by repeat split. Qed.

Lemma same_status_trans st1 st2 st3 :
  same_status st1 st2 → same_status st2 st3 → same_status st1 st3.
Proof.
  intros (Hs & He & Ho & Hn) (Hs' & He' & Ho' & Hn').
  repeat split; congruence.
Qed.

Lemma neutral_bind {A A' : Type} (m : Conn D B A) (k : A → Conn D B A') :
  status_neutral m → (∀ a, status_neutral (k a)) → status_neutral (m ≫= k).
Proof.
  intros Hm Hk st. unfold mbind, Conn_bind.
  specialize (Hm st). destruct (m st) as [[e | a] st1]; simpl in *; [done |].
  eapply same_status_trans; [exact Hm | apply Hk].
Qed.

Lemma neutral_disconnectDap : status_neutral (connection_disconnectDapAsync : Conn D B ()).
Proof.
  intros st. unfold connection_disconnectDapAsync; simpl.
  by destruct (disconnectDapAsync (connection st)).
Qed.

Lemma neutral_connectDap : status_neutral (connection_connectDapAsync : Conn D B ()).
Proof.
  intros st. unfold connection_connectDapAsync; simpl.
  by destruct (connectDapAsync (connection st)).
Qed.

Lemma neutral_parse : status_neutral (parse_boardId : Conn D B B).
Proof.
  intros st. unfold parse_boardId.
  by destruct (dapwrapper_boardId (connection st)).
Qed.

Lemma neutral_dataSource dataSource b : status_neutral (call_dataSource dataSource b : Conn D B FlashData).
Proof. by intros st. Qed.

Lemma neutral_flashAsync bs hex :
  status_neutral (connection_flashAsync bs hex : Conn D B ()).
Proof.
  intros st. unfold connection_flashAsync; simpl.
  by destruct (flashAsync bs hex (connection st)) as [[reports r] d].
Qed.

Lemma neutral_fullFlashAsync hex :
  status_neutral (connection_fullFlashAsync hex : Conn D B ()).
Proof.
  intros st. unfold connection_fullFlashAsync; simpl.
  by destruct (fullFlashAsync hex (connection st)) as [[reports r] d].
Qed.

Lemma neutral_progress p : status_neutral (progress p : Conn D B ()).
Proof. by intros st. Qed.

Create HintDb neutral.
Hint Resolve neutral_disconnectDap neutral_connectDap neutral_parse neutral_dataSource
  neutral_flashAsync neutral_fullFlashAsync neutral_progress : neutral.

Lemma flash_neutral dataSource partial : status_neutral (flash dataSource partial).
Proof.
  unfold flash.
  do 4 (apply neutral_bind; [auto with neutral | intros ?]).
  apply neutral_bind; [destruct partial |]; auto with neutral.
Qed.

Lemma terminal_calls_app (cs cs' : list (Call B)) :
  terminal_calls (cs ++ cs') = (terminal_calls cs + terminal_calls cs')%nat.
Proof. unfold terminal_calls. by rewrite List.filter_app, length_app. Qed.

Lemma terminal_calls_reports (reports : list Z) :
  terminal_calls (map (λ p, CallProgress (B:=B) (Some p)) reports) = 0%nat.
Proof. induction reports as [| p reports IH]; [done | exact IH]. Qed.

(** Taking a [flash] apart, one awaited call at a time. *)
Ltac flash_steps H st :=
  unfold flash, mbind, Conn_bind, connection_disconnectDapAsync,
    connection_connectDapAsync, parse_boardId, call_dataSource,
    connection_flashAsync, connection_fullFlashAsync, progress, log in H;
  simpl in H;
  destruct (disconnectDapAsync (connection st)) as [[e1 | []] d1] eqn:Hdisconnect;
    simpl in H; [| destruct (connectDapAsync d1) as [[e2 | []] d2] eqn:Hconnect;
    simpl in H; [| destruct (dapwrapper_boardId d2) as [e3 | raw] eqn:Hraw;
    simpl in H; [| destruct (BoardId_parse raw) as [e4 | boardId] eqn:Hparse;
    simpl in H; [| destruct (_ boardId) as [e5 | data] eqn:Hdata;
    simpl in H ]]]].

(** C1: for every successful call to flash, the boundary calls made are, in
    this order: the teardown of the debug session, the establishment of a
    new one, the parse of the board identity read from the device then
    connected, the data source on that identity, the partial flash with the
    bytes and the HEX when partial is set and the full flash with the HEX
    alone otherwise, the percentages the driver reported, and last the
    progress callback without a percentage, which is called exactly once. *)
Theorem flash_success_steps dataSource (partial : bool) st st' :
  flash dataSource partial st = (inr (), st') →
  ∃ d1 d2 d3 raw boardId data reports,
    disconnectDapAsync (connection st) = (inr (), d1) ∧
    connectDapAsync d1 = (inr (), d2) ∧
    dapwrapper_boardId d2 = inr raw ∧
    BoardId_parse raw = inr boardId ∧
    dataSource boardId = inr data ∧
    (if partial
     then flashAsync (bytes data) (intelHex data) d2
     else fullFlashAsync (intelHex data) d2) = (reports, inr (), d3) ∧
    calls st' = calls st ++
      [ CallDisconnectDap; CallConnectDap; CallParseBoardId raw;
        CallDataSource boardId;
        if partial
        then CallFlash (bytes data) (intelHex data)
        else CallFullFlash (intelHex data) ]
      ++ map (λ p, CallProgress (Some p)) reports ++ [CallProgress None] ∧
    terminal_calls (drop (length (calls st)) (calls st')) = 1%nat.
Proof.
  intros H. flash_steps H st; try discriminate H.
  exists d1, d2.
  assert (∃ d3 reports,
    (if partial
     then flashAsync (bytes data) (intelHex data) d2
     else fullFlashAsync (intelHex data) d2) = (reports, inr (), d3) ∧
    calls st' = calls st ++
      [ CallDisconnectDap; CallConnectDap; CallParseBoardId raw;
        CallDataSource boardId;
        if partial
        then CallFlash (bytes data) (intelHex data)
        else CallFullFlash (intelHex data) ]
      ++ map (λ p, CallProgress (Some p)) reports ++ [CallProgress None])
    as (d3 & reports & Hflash & Hcalls).
  { destruct partial; simpl in H.
    - destruct (flashAsync (bytes data) (intelHex data) d2) as [[reports [e6 | []]] d3];
        simpl in H; [discriminate H |].
      exists d3, reports. injection H as <-. simpl.
      split; [done |]. by rewrite <- !app_assoc.
    - destruct (fullFlashAsync (intelHex data) d2) as [[reports [e6 | []]] d3];
        simpl in H; [discriminate H |].
      exists d3, reports. injection H as <-. simpl.
      split; [done |]. by rewrite <- !app_assoc. }
  exists d3, raw, boardId, data, reports. repeat split; try done.
  rewrite Hcalls, drop_app_length.
  rewrite !terminal_calls_app, terminal_calls_reports.
  by destruct partial.
Qed.

(** Whatever the establishment of the session rejects with is what [flash]
    throws, as it is. *)
Lemma flash_surfaces_connect_error dataSource (partial : bool) st d1 d2 e :
  disconnectDapAsync (connection st) = (inr (), d1) →
  connectDapAsync d1 = (inl e, d2) →
  (flash dataSource partial st).1 = inl e.
Proof.
  intros Hdisconnect Hconnect.
  unfold flash, connection_disconnectDapAsync, connection_connectDapAsync.
  unfold mbind, Conn_bind. simpl.
  rewrite Hdisconnect. simpl. by rewrite Hconnect.
Qed.

(** X19: a [flash] that fails has not made the terminal call of the progress
    callback. *)
Lemma flash_failure_no_terminal_call dataSource (partial : bool) st st' e :
  flash dataSource partial st = (inl e, st') →
  ∃ cs, calls st' = calls st ++ cs ∧ terminal_calls cs = 0%nat.
Proof.
  intros H. flash_steps H st.
  1-5: injection H as <- <-; simpl; rewrite <- ?app_assoc; eexists; split; done.
  destruct partial; simpl in H.
  - destruct (flashAsync (bytes data) (intelHex data) d2) as [[reports [e6 | []]] d3];
      simpl in H; [| discriminate H].
    injection H as <- <-. simpl. rewrite <- !app_assoc. eexists; split; [done |].
    simpl. apply terminal_calls_reports.
  - destruct (fullFlashAsync (intelHex data) d2) as [[reports [e6 | []]] d3];
      simpl in H; [| discriminate H].
    injection H as <- <-. simpl. rewrite <- !app_assoc. eexists; split; [done |].
    simpl. apply terminal_calls_reports.
Qed.

(** C9: a flash with partial unset does not read the flash bytes: with two
    data sources whose outcomes agree on the Intel HEX on every board
    identity, the result, the calls made to the driver and to the progress
    callback, and the state left are the same. *)
Theorem flash_full_ignores_bytes (ds1 ds2 : FlashDataSource B) st :
  (∀ boardId, same_intelHex (ds1 boardId) (ds2 boardId)) →
  flash ds1 false st = flash ds2 false st.
Proof.
  intros Hsame.
  unfold flash, mbind, Conn_bind, call_dataSource.
  destruct (connection_disconnectDapAsync st) as [[e1 | []] st1]; [done |].
  destruct (connection_connectDapAsync st1) as [[e2 | []] st2]; [done |].
  destruct (parse_boardId st2) as [[e3 | boardId] st3]; [done |].
  specialize (Hsame boardId). unfold same_intelHex in Hsame.
  destruct (ds1 boardId) as [e4 | data1], (ds2 boardId) as [e4' | data2];
    try done; [by subst |].
  by rewrite Hsame.
Qed.

(** C10: every call to flash, successful or not, leaves the status field as
    it was and emits nothing, so no status notification either. *)
Theorem flash_keeps_status dataSource (partial : bool) st :
  status (flash dataSource partial st).2 = status st ∧
  emitted (flash dataSource partial st).2 = emitted st.
Proof.
  destruct (flash_neutral dataSource partial st) as (Hs & He & _).
  by split.
Qed.

(** C3, as amended: a disconnect whose teardown resolves returns, sets the
    status to [NOT_CONNECTED] and emits it; a disconnect whose teardown
    rejects throws the classified error and leaves the status and the
    emitter as they were. *)
Theorem disconnect_status st :
  let st' := (disconnect st).2 in
  match (disconnectDapAsync (connection st)).1 with
  | inr _ =>
      (disconnect st).1 = inr () ∧
      status st' = NOT_CONNECTED ∧
      emitted st' = emitted st ++ [(EVENT_STATUS, StatusPayload NOT_CONNECTED)]
  | inl e =>
      (disconnect st).1 = inl (ThrownError (enrichedError e)) ∧
      status st' = status st ∧
      emitted st' = emitted st
  end.
Proof.
  unfold disconnect, withEnrichedErrors, mbind, Conn_bind,
    connection_disconnectDapAsync.
  simpl.
  by destruct (disconnectDapAsync (connection st)) as [[e | []] d].
Qed.

Lemma enrichedError_unsupported :
  enrichedError (ThrownError (new_Error (Some "Unsupported. Check connection status first.")))
  = {| message := "Unsupported. Check connection status first."; type := Some UNKNOWN |}.
Proof. vm_compute. reflexivity. Qed.

Lemma connect_without_usb (mode : ConnectionMode) st :
  navigator_usb st = None →
  connect mode st
  = (inl (ThrownError {| message := "Unsupported. Check connection status first.";
                         type := Some UNKNOWN |}), st).
Proof.
  intros Husb.
  unfold connect, withEnrichedErrors, connectInternal, assertSupported, throw.
  unfold mbind, Conn_bind. cbv beta. rewrite Husb. cbv beta iota. by rewrite enrichedError_unsupported.
Qed.

(** C5, as amended: in either mode, connect on a host without the USB
    capability throws an error of kind [UNKNOWN] with the message of
    [assertSupported]; it does not return and leaves the state, hence the
    status, as it was. *)
Theorem connect_unsupported (mode : ConnectionMode) st :
  navigator_usb st = None →
  ∃ e,
    connect mode st = (inl (ThrownError e), st) ∧
    type e = Some UNKNOWN ∧
    message e = "Unsupported. Check connection status first.".
Proof.
  intros Husb. eexists. split; [by apply connect_without_usb | done].
Qed.

(** One step from a status of [NOT_SUPPORTED] on a host without WebUSB. *)
Lemma perform_not_supported (op : Operation B) st :
  navigator_usb st = None →
  status st = NOT_SUPPORTED →
  keeps_status op st = true →
  navigator_usb (perform op st) = None ∧ status (perform op st) = NOT_SUPPORTED.
Proof.
  intros Husb Hstatus Hkeeps.
  destruct op as [| mode | | dataSource partial | device | device]; simpl in *.
  - unfold initialize, mbind, Conn_bind, getPairedDevice. by rewrite Husb.
  - by rewrite connect_without_usb.
  - unfold disconnect, withEnrichedErrors, mbind, Conn_bind,
      connection_disconnectDapAsync.
    simpl. by destruct (disconnectDapAsync (connection st)) as [[e | []] d].
  - destruct (flash_neutral dataSource partial st) as (Hs & _ & _ & Hn).
    split; congruence.
  - unfold handleConnect. rewrite Hstatus.
    by destruct (this_matchesDeviceFilter st device).
  - unfold handleDisconnect.
    apply bool_decide_eq_true in Hkeeps. by rewrite decide_False.
Qed.

Lemma run_not_supported (ops : list (Operation B)) st :
  navigator_usb st = None →
  status st = NOT_SUPPORTED →
  keep_status ops st = true →
  status (run ops st) = NOT_SUPPORTED.
Proof.
  revert st. induction ops as [| op ops IH]; intros st Husb Hstatus Hkeep; [done |].
  simpl in Hkeep. apply andb_true_iff in Hkeep as [Hop Hops].
  destruct (perform_not_supported op st Husb Hstatus Hop) as [Husb' Hstatus'].
  simpl. by apply IH.
Qed.

(** The paths that are gated keep the status: an instance constructed on a
    host without the USB capability has status [NOT_SUPPORTED], and still has
    it after any sequence of initialize, connect, flash, device attach
    notifications, disconnects whose teardown rejects and detach
    notifications for a device other than the driver's. *)
Theorem not_supported_kept (d : D) (opts : PartialOptions) (ops : list (Operation B)) :
  keep_status ops (new_MicrobitWebUSBConnection None d opts) = true →
  status (new_MicrobitWebUSBConnection (B:=B) None d opts) = NOT_SUPPORTED ∧
  status (run ops (new_MicrobitWebUSBConnection None d opts)) = NOT_SUPPORTED.
Proof.
  intros Hkeep. split; [done |]. by apply run_not_supported.
Qed.

(** What [handleConnect] does when the connect it starts fails. *)
Lemma handleConnect_autoconnect_failure (device : USBDevice) st e d :
  this_matchesDeviceFilter st device = true →
  status st = NO_AUTHORIZED_DEVICE →
  autoConnect (options st) = true →
  is_Some (navigator_usb st) →
  connectDapAsync (connection st) = (inl e, d) →
  (handleConnect device st).1 = inr () ∧
  status (handleConnect device st).2 = NOT_CONNECTED ∧
  emitted (handleConnect device st).2
  = emitted st ++ [ (EVENT_STATUS, StatusPayload NOT_CONNECTED);
                    (EVENT_SERIAL_ERROR, ErrorPayload (ThrownError (enrichedError e))) ].
Proof.
  intros Hmatch Hstatus Hauto [paired Husb] Hconnect.
  unfold handleConnect. rewrite Hmatch, Hstatus. simpl.
  unfold mbind, Conn_bind, setStatus, emit, this_options. simpl. rewrite Hauto.
  unfold catch, connect, withEnrichedErrors, connectInternal,
    assertSupported, connection_connectDapAsync.
  unfold mbind, Conn_bind. simpl. rewrite Husb. simpl. rewrite Hconnect. simpl.
  by rewrite <- app_assoc.
Qed.

End Correctness.

(** ** The device matcher *)

(** C6: the matcher answers true exactly when some configured filter has its
    vendor id unset or equal to the device's and its product id unset or
    equal to the device's; it is a function of the filters and the device
    alone. *)
Theorem matchesDeviceFilter_iff (F : list USBDeviceFilter) (device : USBDevice) :
  matchesDeviceFilter F device = true ↔
  ∃ f, f ∈ F ∧
       (filter_vendorId f = None ∨ filter_vendorId f = Some (vendorId device)) ∧
       (filter_productId f = None ∨ filter_productId f = Some (productId device)).
Proof.
  unfold matchesDeviceFilter. rewrite existsb_exists. split.
  - intros (f & Hin & Hf). exists f. apply list_elem_of_In in Hin.
    apply andb_true_iff in Hf as [Hp Hv]. split; [done |].
    destruct (filter_vendorId f) as [v |], (filter_productId f) as [p |];
      try apply Z.eqb_eq in Hv; try apply Z.eqb_eq in Hp; subst; auto.
  - intros (f & Hin & Hv & Hp). exists f. apply list_elem_of_In in Hin.
    split; [done |]. apply andb_true_iff.
    destruct Hv as [-> | ->], Hp as [-> | ->]; by rewrite ?Z.eqb_refl.
Qed.

(** ** The error classifier *)

(** The message [enrichedError] looks up. *)
Lemma enrichedError_claimed (e : JsError) :
  message e = "Unable to claim interface." →
  enrichedError (ThrownError e)
  = {| message := "Cannot connect. Check no other browser tabs or windows are using the micro:bit.";
       type := Some UNABLE_TO_CLAIM_INTERFACE |}.
Proof. intros Hm. unfold enrichedError. rewrite Hm. vm_compute. reflexivity. Qed.

(** X22: a message that is neither a key of [specialCases] nor a property name of
    its prototype is kept, under the kind [UNKNOWN]. *)
Lemma enrichedError_unknown (e : JsError) :
  message e ≠ "Unable to claim interface." →
  message e ∉ Object_prototype →
  enrichedError (ThrownError e) = {| message := message e; type := Some UNKNOWN |}.
Proof.
  intros Hne Hproto. unfold enrichedError, specialCases_get, specialCases.
  rewrite lookup_singleton_ne by done. by rewrite decide_False.
Qed.

(** C7: on an error whose message is a property name of [Object.prototype],
    here ["constructor"], the lookup in [specialCases] finds the inherited
    member; the classifier returns a new error with an empty message and no
    kind, where the claim has kind Unknown and the message kept. *)
Theorem enrichedError_inherited_name :
  enrichedError (ThrownError {| message := "constructor"; type := None |})
  = {| message := ""; type := None |}.
Proof. vm_compute. reflexivity. Qed.

(** ** Failures that are surfaced *)

(** C2: when the establishment of the session rejects with "Unable to claim
    interface.", flash makes no terminal progress call and throws that error
    as it is, without a kind; connect, on the same failure, throws the
    classified error. *)
Theorem flash_error_unclassified :
  let st := connection_in CONNECTED (refusing claimed) in
  (flash sample_dataSource true st).1 = inl claimed ∧
  terminal_calls (calls (flash sample_dataSource true st).2) = 0%nat ∧
  claimed ≠ ThrownError (enrichedError claimed) ∧
  (connect INTERACTIVE st).1 = inl (ThrownError (enrichedError claimed)).
Proof. vm_compute. by repeat split. Qed.

(** C8: a matching device is attached while the status is
    [NO_AUTHORIZED_DEVICE] and autoConnect is set, and the background connect
    fails: the status becomes [NOT_CONNECTED] and nothing is thrown, but the
    failure is emitted on the serial error channel; [initialize], on the same
    failure, emits it on the autoconnect error channel. *)
Theorem handleConnect_failure_channel :
  let st := connection_in NO_AUTHORIZED_DEVICE (refusing claimed) in
  let st' := new_MicrobitWebUSBConnection (Some [microbit]) (refusing claimed) no_options in
  (handleConnect microbit st).1 = inr () ∧
  status (handleConnect microbit st).2 = NOT_CONNECTED ∧
  emitted (handleConnect microbit st).2
  = [ (EVENT_STATUS, StatusPayload NOT_CONNECTED);
      (EVENT_SERIAL_ERROR, ErrorPayload (ThrownError (enrichedError claimed))) ] ∧
  EVENT_SERIAL_ERROR ≠ EVENT_AUTOCONNECT_ERROR ∧
  emitted (initialize (B:=string) st').2
  = [ (EVENT_STATUS, StatusPayload NOT_CONNECTED);
      (EVENT_AUTOCONNECT_ERROR, ErrorPayload (ThrownError (enrichedError claimed))) ].
Proof. vm_compute. by repeat split. Qed.

(** ** Where the code leaves the claims *)

(** C3, as stated, fails: with a teardown that rejects, disconnect throws the
    classified error and the status stays [CONNECTED]. *)
Lemma disconnect_failure_keeps_status :
  let st := connection_in CONNECTED (stuck claimed) in
  (disconnect st).1 = inl (ThrownError (enrichedError claimed)) ∧
  status (disconnect st).2 = CONNECTED ∧
  status (disconnect st).2 ≠ NOT_CONNECTED.
Proof. vm_compute. by repeat split. Qed.

(** C4: on a new connection on a host without the USB capability, a
    disconnect whose teardown resolves moves the status from [NOT_SUPPORTED]
    to [NOT_CONNECTED], where the claim has no operation move it out of
    NotSupported; connect and initialize, which are gated, keep it. *)
Lemma disconnect_leaves_not_supported :
  let st := unsupported idle in
  navigator_usb st = None ∧
  status st = NOT_SUPPORTED ∧
  status (run [OpDisconnect] st) = NOT_CONNECTED ∧
  status (run [OpDisconnect] st) ≠ NOT_SUPPORTED ∧
  status (run [OpConnect INTERACTIVE; OpInitialize; OpAttach microbit] st) = NOT_SUPPORTED.
Proof. vm_compute. by repeat split. Qed.

(** C5, as stated, fails: the error connect throws on a host without the USB
    capability has the kind Unknown, not a kind NotSupported. *)
Lemma connect_unsupported_kind :
  ∃ e,
    (connect INTERACTIVE (unsupported idle)).1 = inl (ThrownError e) ∧
    spec_kind <$> type e = Some Unknown ∧
    spec_kind <$> type e ≠ Some NotSupported.
Proof. eexists. vm_compute. by repeat split. Qed.

(** ** Runs on the sample collaborators *)

(** With partial set the flash bytes do reach the driver: the two sample data
    sources, which differ in the bytes alone, are told apart. *)
Example flash_partial_reads_bytes :
  flash sample_dataSource true (connection_in CONNECTED working)
  ≠ flash other_dataSource true (connection_in CONNECTED working).
Proof. vm_compute. discriminate. Qed.

(** Two paired devices that match: [initialize] selects none and the status
    stays [NO_AUTHORIZED_DEVICE]. *)
Example initialize_ambiguous :
  initialize (B:=string)
    (new_MicrobitWebUSBConnection (Some [microbit; other_device]) working no_options)
  = (inr (), new_MicrobitWebUSBConnection (Some [microbit; other_device]) working no_options).
Proof. vm_compute. reflexivity. Qed.

(** One paired device and a driver that connects: [initialize] ends in
    [CONNECTED], through [NOT_CONNECTED]. *)
Example initialize_autoconnect :
  let st := (initialize (B:=string)
               (new_MicrobitWebUSBConnection (Some [microbit]) working no_options)).2 in
  status st = CONNECTED ∧
  emitted st = [ (EVENT_STATUS, StatusPayload NOT_CONNECTED);
                 (EVENT_STATUS, StatusPayload CONNECTED) ].
Proof. vm_compute. by split. Qed.

Lemma flash_success_steps_witness :
  let st := connection_in CONNECTED working in
  let st' := (flash sample_dataSource true st).2 in
  ∃ (d1 d2 d3 : Script) raw boardId data reports,
    disconnectDapAsync (connection st) = (inr (), d1) ∧
    connectDapAsync d1 = (inr (), d2) ∧
    dapwrapper_boardId d2 = inr raw ∧
    BoardId_parse raw = inr boardId ∧
    sample_dataSource boardId = inr data ∧
    flashAsync (bytes data) (intelHex data) d2 = (reports, inr (), d3) ∧
    calls st' = calls st ++
      [ CallDisconnectDap; CallConnectDap; CallParseBoardId raw;
        CallDataSource boardId; CallFlash (bytes data) (intelHex data) ]
      ++ map (λ p, CallProgress (Some p)) reports ++ [CallProgress None] ∧
    terminal_calls (drop (length (calls st)) (calls st')) = 1%nat.
Proof.
  apply (flash_success_steps sample_dataSource true (connection_in CONNECTED working)).
  vm_compute. reflexivity.
Defined.

Lemma flash_full_ignores_bytes_witness :
  flash sample_dataSource false (connection_in CONNECTED working)
  = flash other_dataSource false (connection_in CONNECTED working).
Proof.
  apply (flash_full_ignores_bytes sample_dataSource other_dataSource).
  intros boardId. simpl. reflexivity.
Defined.

Lemma connect_unsupported_witness :
  ∃ e,
    connect NON_INTERACTIVE (unsupported idle) = (inl (ThrownError e), unsupported idle) ∧
    type e = Some UNKNOWN ∧
    message e = "Unsupported. Check connection status first.".
Proof. apply (connect_unsupported NON_INTERACTIVE (unsupported idle)). reflexivity. Defined.

Lemma not_supported_kept_witness :
  let ops := [ OpInitialize; OpConnect INTERACTIVE; OpAttach microbit;
               OpFlash sample_dataSource true; OpDisconnect; OpDetach other_device;
               OpConnect NON_INTERACTIVE ] in
  status (unsupported (stuck claimed)) = NOT_SUPPORTED ∧
  status (run ops (unsupported (stuck claimed))) = NOT_SUPPORTED.
Proof.
  apply (not_supported_kept (stuck claimed) no_options). vm_compute. reflexivity.
Defined.

(** ** The status channel *)

Lemma tracked_status_app (s : ConnectionStatus) (evs evs' : list (string * Payload)) :
  tracked_status s (evs ++ evs') = tracked_status (tracked_status s evs) evs'.
Proof. unfold tracked_status. apply foldl_app. Qed.

Section Notified.
Context {D B : Type} `{!PartialFlashing D} `{!BoardIdParser B}.
Implicit Types (st : State D B) (dataSource : FlashDataSource B).

Lemma notifies_refl st : notifies st st.
Proof. exists []. by rewrite app_nil_r. Qed.

Lemma notifies_trans st1 st2 st3 :
  notifies st1 st2 → notifies st2 st3 → notifies st1 st3.
Proof.
  intros (evs & He & Ht & Ho & Hn) (evs' & He' & Ht' & Ho' & Hn').
  exists (evs ++ evs'). repeat split; try congruence.
  - by rewrite He', He, app_assoc.
  - by rewrite tracked_status_app, Ht.
Qed.

Lemma neutral_notifies st st' : same_status st st' → notifies st st'.
Proof.
  intros (Hs & He & Ho & Hn). exists []. rewrite app_nil_r. by repeat split.
Qed.

Lemma neutral_notifying {A : Type} (m : Conn D B A) : status_neutral m → notifying m.
Proof. intros Hm st. apply neutral_notifies, Hm. Qed.

Lemma notifying_bind {A A' : Type} (m : Conn D B A) (k : A → Conn D B A') :
  notifying m → (∀ a, notifying (k a)) → notifying (m ≫= k).
Proof.
  intros Hm Hk st. unfold mbind, Conn_bind.
  specialize (Hm st). destruct (m st) as [[e | a] st1]; simpl in *; [done |].
  eapply notifies_trans; [exact Hm | apply Hk].
Qed.

Lemma notifying_catch {A : Type} (m : Conn D B A) (h : Thrown → Conn D B ()) :
  notifying m → (∀ e, notifying (h e)) → notifying (catch m h).
Proof.
  intros Hm Hh st. unfold catch.
  specialize (Hm st). destruct (m st) as [[e | a] st1]; simpl in *; [| done].
  eapply notifies_trans; [exact Hm | apply Hh].
Qed.

Lemma notifying_withEnrichedErrors {A : Type} (f : Conn D B A) :
  notifying f → notifying (withEnrichedErrors f).
Proof.
  intros Hf st. unfold withEnrichedErrors.
  specialize (Hf st). by destruct (f st) as [[e | a] st1].
Qed.

Lemma notifying_ret {A : Type} (a : A) : notifying (mret a : Conn D B A).
Proof. intros st. apply notifies_refl. Qed.

Lemma notifying_setStatus (s : ConnectionStatus) : notifying (setStatus s : Conn D B ()).
Proof.
  intros st. exists [(EVENT_STATUS, StatusPayload s)]. by repeat split.
Qed.

Lemma notifying_emit_error (channel : string) (e : Thrown) :
  notifying (emit channel (ErrorPayload e) : Conn D B ()).
Proof. intros st. exists [(channel, ErrorPayload e)]. by repeat split. Qed.

Lemma notifying_connect (mode : ConnectionMode) : notifying (connect mode : Conn D B _).
Proof.
  unfold connect, connectInternal.
  apply notifying_withEnrichedErrors.
  apply notifying_bind.
  - apply notifying_bind.
    + intros st. unfold assertSupported, throw.
      destruct (navigator_usb st); apply notifies_refl.
    + intros _. apply notifying_bind; [| intros _; apply notifying_ret].
      apply neutral_notifying, neutral_connectDap.
  - intros s. apply notifying_bind; [apply notifying_setStatus |].
    intros _ st. apply notifies_refl.
Qed.

Lemma notifying_disconnect : notifying (disconnect : Conn D B ()).
Proof.
  unfold disconnect. apply notifying_withEnrichedErrors.
  apply notifying_bind; [| intros _; apply notifying_setStatus].
  apply neutral_notifying, neutral_disconnectDap.
Qed.

Lemma notifying_autoconnect (channel : string) :
  notifying (setStatus NOT_CONNECTED ;;
             opts ← this_options;
             if autoConnect opts
             then catch (connect NON_INTERACTIVE) (λ e, emit channel (ErrorPayload e))
             else mret () : Conn D B ()).
Proof.
  apply notifying_bind; [apply notifying_setStatus | intros _].
  apply notifying_bind; [intros st; apply notifies_refl | intros opts].
  destruct (autoConnect opts); [| apply notifying_ret].
  apply notifying_catch; [apply notifying_connect |].
  intros e. apply notifying_emit_error.
Qed.

Lemma notifying_initialize : notifying (initialize : Conn D B ()).
Proof.
  unfold initialize. apply notifying_bind.
  - intros st. unfold getPairedDevice.
    destruct (navigator_usb st); apply notifies_refl.
  - intros [device |]; [apply notifying_autoconnect | apply notifying_ret].
Qed.

Lemma notifying_handleConnect (device : USBDevice) :
  notifying (handleConnect device : Conn D B ()).
Proof.
  intros st. unfold handleConnect.
  destruct (this_matchesDeviceFilter st device); [| apply notifies_refl].
  destruct (decide (status st = NO_AUTHORIZED_DEVICE)); [| apply notifies_refl].
  apply (notifying_autoconnect EVENT_SERIAL_ERROR).
Qed.

Lemma notifying_handleDisconnect (device : USBDevice) :
  notifying (handleDisconnect device : Conn D B ()).
Proof.
  intros st. unfold handleDisconnect.
  destruct (decide _); [apply notifying_setStatus | apply notifies_refl].
Qed.

Lemma perform_notifies (op : Operation B) st : notifies st (perform op st).
Proof.
  destruct op as [| mode | | dataSource partial | device | device]; simpl.
  - apply notifying_initialize.
  - apply notifying_connect.
  - apply notifying_disconnect.
  - apply neutral_notifies, flash_neutral.
  - apply notifying_handleConnect.
  - apply notifying_handleDisconnect.
Qed.

Lemma run_notifies (ops : list (Operation B)) st : notifies st (run ops st).
Proof.
  revert st. induction ops as [| op ops IH]; intros st; [apply notifies_refl |].
  simpl. eapply notifies_trans; [apply perform_notifies | apply IH].
Qed.

(** X14: a listener that takes the status of a new connection and then follows
    the status channel holds the status of the connection after any sequence
    of initialize, connect, disconnect, flash and attach and detach
    notifications. *)
Theorem status_channel_tracks_status
    (usb : option (list USBDevice)) (d : D) (opts : PartialOptions)
    (ops : list (Operation B)) :
  let st0 := new_MicrobitWebUSBConnection (B:=B) usb d opts in
  tracked_status (status st0) (emitted (run ops st0)) = status (run ops st0).
Proof.
  simpl. destruct (run_notifies ops (new_MicrobitWebUSBConnection usb d opts))
    as (evs & He & Ht & _).
  rewrite He. exact Ht.
Qed.

(** X15: no sequence of operations changes the options or retracts a notification:
    the options are those of the start, and what was emitted is a prefix of
    what is emitted at the end. *)
Theorem run_keeps_options (ops : list (Operation B)) st :
  options (run ops st) = options st ∧
  navigator_usb (run ops st) = navigator_usb st ∧
  emitted st `prefix_of` emitted (run ops st).
Proof.
  destruct (run_notifies ops st) as (evs & He & _ & Ho & Hn).
  repeat split; try done. by exists evs.
Qed.

End Notified.

(** ** Connecting, and the handlers *)

Section Operations.
Context {D B : Type} `{!PartialFlashing D} `{!BoardIdParser B}.
Implicit Types (st : State D B) (dataSource : FlashDataSource B).

Lemma connect_established (mode : ConnectionMode) st d :
  is_Some (navigator_usb st) →
  connectDapAsync (connection st) = (inr (), d) →
  connect mode st
  = (inr CONNECTED,
     add_emitted (EVENT_STATUS, StatusPayload CONNECTED)
       (set_status CONNECTED (set_connection d (add_calls [CallConnectDap] st)))).
Proof.
  intros [paired Husb] Hconnect.
  unfold connect, withEnrichedErrors, connectInternal, assertSupported,
    connection_connectDapAsync.
  unfold mbind, Conn_bind. simpl. rewrite Husb. simpl. by rewrite Hconnect.
Qed.

(** X1: in either mode, on a host with WebUSB and a driver whose session is
    established, connect returns [CONNECTED], sets the status to it, emits it
    once, and calls the driver once. *)
Theorem connect_success (mode : ConnectionMode) st d :
  is_Some (navigator_usb st) →
  connectDapAsync (connection st) = (inr (), d) →
  connect mode st
  = (inr CONNECTED,
     add_emitted (EVENT_STATUS, StatusPayload CONNECTED)
       (set_status CONNECTED (set_connection d (add_calls [CallConnectDap] st)))).
Proof. apply connect_established. Qed.

(** X2: a connect that throws has changed neither the status nor the emitter, and
    what it throws is a result of the classifier. *)
Theorem connect_failure (mode : ConnectionMode) st st' e :
  connect mode st = (inl e, st') →
  status st' = status st ∧
  emitted st' = emitted st ∧
  ∃ raw, e = ThrownError (enrichedError raw).
Proof.
  unfold connect, withEnrichedErrors, connectInternal, assertSupported, throw,
    connection_connectDapAsync, setStatus, emit, this_status.
  unfold mbind, Conn_bind. simpl.
  destruct (navigator_usb st); simpl.
  - destruct (connectDapAsync (connection st)) as [[raw | []] d]; simpl; [| done].
    intros [= <- <-]. eauto.
  - intros [= <- <-]. eauto.
Qed.

Lemma autoconnect_returns (channel : string) st :
  ((setStatus NOT_CONNECTED ;;
    opts ← this_options;
    if autoConnect opts
    then catch (connect NON_INTERACTIVE) (λ e, emit channel (ErrorPayload e))
    else mret () : Conn D B ()) st).1 = inr ().
Proof.
  unfold mbind, Conn_bind, setStatus, emit, this_options. simpl.
  destruct (autoConnect (options st)); [| done].
  unfold catch. by destruct (connect NON_INTERACTIVE _) as [[e | s] st1].
Qed.

(** X3: [initialize] and the two handlers of device notifications return
    whatever the driver does: a connect that fails in the background is
    caught. *)
Theorem initialize_and_handlers_return (device : USBDevice) st :
  (initialize st).1 = inr () ∧
  (handleConnect device st).1 = inr () ∧
  (handleDisconnect device st).1 = inr ().
Proof.
  repeat split.
  - unfold initialize, getPairedDevice. unfold mbind at 1. unfold Conn_bind at 1.
    destruct (navigator_usb st) as [paired |]; [| done].
    destruct (filter _ paired) as [| found [| ? ?]]; try done.
    apply autoconnect_returns.
  - unfold handleConnect.
    destruct (this_matchesDeviceFilter st device); [| done].
    destruct (decide _); [| done]. apply autoconnect_returns.
  - unfold handleDisconnect. by destruct (decide _).
Qed.

(** X4: [getPairedDevice] returns a device exactly when one paired device, and
    no more, matches the filters; it is that device, and nothing changes. *)
Theorem getPairedDevice_unique st (device : USBDevice) :
  getPairedDevice st = (inr (Some device), st) ↔
  ∃ paired,
    navigator_usb st = Some paired ∧
    filter (λ d, this_matchesDeviceFilter st d = true) paired = [device].
Proof.
  unfold getPairedDevice. split.
  - destruct (navigator_usb st) as [paired |]; [| done].
    intros Hget. exists paired. split; [done |].
    destruct (filter _ paired) as [| found [| ? ?]]; try done.
    by injection Hget as ->.
  - intros (paired & -> & ->). done.
Qed.

(** X5: without WebUSB, or when the paired devices that match the filters are
    none or several, [initialize] changes nothing and emits nothing. *)
Theorem initialize_without_device st :
  (∀ paired, navigator_usb st = Some paired →
     length (filter (λ d, this_matchesDeviceFilter st d = true) paired) ≠ 1%nat) →
  initialize st = (inr (), st).
Proof.
  intros Hcount. unfold initialize, getPairedDevice.
  unfold mbind at 1. unfold Conn_bind at 1.
  destruct (navigator_usb st) as [paired |]; [| done].
  specialize (Hcount paired eq_refl).
  by destruct (filter _ paired) as [| found [| ? ?]].
Qed.

Lemma initialize_with_device st paired (device : USBDevice) :
  navigator_usb st = Some paired →
  filter (λ d, this_matchesDeviceFilter st d = true) paired = [device] →
  initialize st
  = (setStatus NOT_CONNECTED ;;
     opts ← this_options;
     if autoConnect opts
     then catch (connect NON_INTERACTIVE)
                (λ e, emit EVENT_AUTOCONNECT_ERROR (ErrorPayload e))
     else mret () : Conn D B ()) st.
Proof.
  intros Husb Hone. unfold initialize, getPairedDevice.
  unfold mbind at 1. unfold Conn_bind at 1. by rewrite Husb, Hone.
Qed.

(** X6: with one matching paired device and autoConnect unset, [initialize] sets
    the status to [NOT_CONNECTED], emits it, and does not call the driver. *)
Theorem initialize_without_autoConnect st paired (device : USBDevice) :
  navigator_usb st = Some paired →
  filter (λ d, this_matchesDeviceFilter st d = true) paired = [device] →
  autoConnect (options st) = false →
  initialize st
  = (inr (), add_emitted (EVENT_STATUS, StatusPayload NOT_CONNECTED)
               (set_status NOT_CONNECTED st)).
Proof.
  intros Husb Hone Hauto. unfold initialize, getPairedDevice.
  unfold mbind, Conn_bind, setStatus, emit, this_options. simpl.
  rewrite Husb, Hone. simpl. by rewrite Hauto.
Qed.

(** X7: with one matching paired device, autoConnect set and a driver whose
    session is established, [initialize] ends in [CONNECTED], having emitted
    [NOT_CONNECTED] and then [CONNECTED]. *)
Theorem initialize_autoconnect_success st paired (device : USBDevice) d :
  navigator_usb st = Some paired →
  filter (λ d, this_matchesDeviceFilter st d = true) paired = [device] →
  autoConnect (options st) = true →
  connectDapAsync (connection st) = (inr (), d) →
  status (initialize st).2 = CONNECTED ∧
  emitted (initialize st).2
  = emitted st ++ [ (EVENT_STATUS, StatusPayload NOT_CONNECTED);
                    (EVENT_STATUS, StatusPayload CONNECTED) ].
Proof.
  intros Husb Hone Hauto Hconnect.
  rewrite (initialize_with_device st paired device Husb Hone).
  unfold mbind, Conn_bind, setStatus, emit, this_options. simpl. rewrite Hauto.
  unfold catch.
  rewrite (connect_established NON_INTERACTIVE _ d); [| by simpl; rewrite Husb | done].
  simpl. by rewrite <- app_assoc.
Qed.

(** X8: with one matching paired device, autoConnect set and a driver that
    rejects the session with [e], [initialize] returns normally; once the
    connect it started in the background has settled (the source does not
    await it, so this is after the return), the status is [NOT_CONNECTED]
    and what was emitted is that status and then the classified error on the
    autoconnect error channel. *)
Theorem initialize_autoconnect_failure st paired (device : USBDevice) d e :
  navigator_usb st = Some paired →
  filter (λ d, this_matchesDeviceFilter st d = true) paired = [device] →
  autoConnect (options st) = true →
  connectDapAsync (connection st) = (inl e, d) →
  (initialize st).1 = inr () ∧
  status (initialize st).2 = NOT_CONNECTED ∧
  emitted (initialize st).2
  = emitted st ++ [ (EVENT_STATUS, StatusPayload NOT_CONNECTED);
                    (EVENT_AUTOCONNECT_ERROR, ErrorPayload (ThrownError (enrichedError e))) ].
Proof.
  intros Husb Hone Hauto Hconnect.
  rewrite (initialize_with_device st paired device Husb Hone).
  unfold mbind, Conn_bind, setStatus, emit, this_options. simpl. rewrite Hauto.
  unfold catch, connect, withEnrichedErrors, connectInternal, assertSupported,
    connection_connectDapAsync.
  unfold mbind, Conn_bind. simpl. rewrite Husb. simpl. rewrite Hconnect. simpl.
  by rewrite <- app_assoc.
Qed.

(** X9: an attach notification for a device that matches no filter, or one that
    arrives in a status other than [NO_AUTHORIZED_DEVICE], changes nothing. *)
Theorem handleConnect_ignored (device : USBDevice) st :
  this_matchesDeviceFilter st device = false ∨ status st ≠ NO_AUTHORIZED_DEVICE →
  handleConnect device st = (inr (), st).
Proof.
  intros [Hmatch | Hstatus]; unfold handleConnect.
  - by rewrite Hmatch.
  - destruct (this_matchesDeviceFilter st device); [| done].
    by rewrite decide_False.
Qed.

(** X10: an attach notification for a matching device in the status
    [NO_AUTHORIZED_DEVICE], with autoConnect set and a driver whose session
    is established: once the connect that the handler started in the
    background has settled (the handler itself returns before, with the
    status [NOT_CONNECTED]), the status is [CONNECTED], and what was emitted
    is [NOT_CONNECTED] and then [CONNECTED]. *)
Theorem handleConnect_autoconnect_success (device : USBDevice) st d :
  this_matchesDeviceFilter st device = true →
  status st = NO_AUTHORIZED_DEVICE →
  autoConnect (options st) = true →
  is_Some (navigator_usb st) →
  connectDapAsync (connection st) = (inr (), d) →
  status (handleConnect device st).2 = CONNECTED ∧
  emitted (handleConnect device st).2
  = emitted st ++ [ (EVENT_STATUS, StatusPayload NOT_CONNECTED);
                    (EVENT_STATUS, StatusPayload CONNECTED) ].
Proof.
  intros Hmatch Hstatus Hauto Husb Hconnect.
  unfold handleConnect. rewrite Hmatch, Hstatus. simpl.
  unfold mbind, Conn_bind, setStatus, emit, this_options. simpl. rewrite Hauto.
  unfold catch.
  rewrite (connect_established NON_INTERACTIVE _ d); [| done | done].
  simpl. by rewrite <- app_assoc.
Qed.

(** X11: a detach notification for the driver's device sets the status to
    [NO_AUTHORIZED_DEVICE] from any status and emits it; for any other
    device, and while the driver has no device, it changes nothing. *)
Theorem handleDisconnect_status (device : USBDevice) st :
  (deviceRef <$> dapwrapper_daplink_device (connection st) = Some (deviceRef device) →
   handleDisconnect device st
   = (inr (), add_emitted (EVENT_STATUS, StatusPayload NO_AUTHORIZED_DEVICE)
                (set_status NO_AUTHORIZED_DEVICE st))) ∧
  (deviceRef <$> dapwrapper_daplink_device (connection st) ≠ Some (deviceRef device) →
   handleDisconnect device st = (inr (), st)).
Proof.
  unfold handleDisconnect. split; intros Hdevice.
  - by rewrite decide_True.
  - by rewrite decide_False.
Qed.

(** X12: a disconnect after a successful connect, with a teardown that resolves,
    leaves the status [NOT_CONNECTED]; the two status notifications are
    [CONNECTED] and then [NOT_CONNECTED]. *)
Theorem connect_then_disconnect (mode : ConnectionMode) st d d' :
  is_Some (navigator_usb st) →
  connectDapAsync (connection st) = (inr (), d) →
  disconnectDapAsync d = (inr (), d') →
  let st' := (disconnect (connect mode st).2).2 in
  status st' = NOT_CONNECTED ∧
  emitted st' = emitted st ++ [ (EVENT_STATUS, StatusPayload CONNECTED);
                                (EVENT_STATUS, StatusPayload NOT_CONNECTED) ] ∧
  calls st' = calls st ++ [CallConnectDap; CallDisconnectDap].
Proof.
  intros Husb Hconnect Hdisconnect.
  rewrite (connect_established mode st d Husb Hconnect).
  unfold disconnect, withEnrichedErrors, connection_disconnectDapAsync.
  unfold mbind, Conn_bind. simpl. rewrite Hdisconnect. simpl.
  repeat split; by rewrite <- ?app_assoc.
Qed.

(** X13: a connection constructed without the deviceFilters option accepts
    exactly the devices with the vendor id 0x0d28 and the product id
    0x0204. *)
Theorem default_filter_matches
    (usb : option (list USBDevice)) (d : D) (auto : option bool) (device : USBDevice) :
  let st := new_MicrobitWebUSBConnection (B:=B) usb d
              {| opt_autoConnect := auto; opt_deviceFilters := None |} in
  this_matchesDeviceFilter st device = true ↔
  vendorId device = 0x0d28 ∧ productId device = 0x0204.
Proof.
  unfold this_matchesDeviceFilter, matchesDeviceFilter. cbn -[Z.eqb].
  rewrite orb_false_r, andb_true_iff, !Z.eqb_eq. split; intros [? ?]; by split.
Qed.

End Operations.

(** ** Failures of a flash *)

Section FlashFailures.
Context {D B : Type} `{!PartialFlashing D} `{!BoardIdParser B}.
Implicit Types (st : State D B) (dataSource : FlashDataSource B).

(** X16: when the teardown rejects, flash throws what it rejected with, as it is,
    and has called nothing else: no session is established. *)
Theorem flash_teardown_failure dataSource (partial : bool) st d e :
  disconnectDapAsync (connection st) = (inl e, d) →
  flash dataSource partial st
  = (inl e, set_connection d (add_calls [CallDisconnectDap] st)).
Proof.
  intros Hdisconnect. unfold flash, connection_disconnectDapAsync.
  unfold mbind at 1. unfold Conn_bind at 1. simpl. by rewrite Hdisconnect.
Qed.

(** X17: when the board identifier does not parse, flash throws the parser's
    error; the data source and the driver's flash operations are not
    called. *)
Theorem flash_parse_failure dataSource (partial : bool) st d1 d2 raw e :
  disconnectDapAsync (connection st) = (inr (), d1) →
  connectDapAsync d1 = (inr (), d2) →
  dapwrapper_boardId d2 = inr raw →
  BoardId_parse raw = inl e →
  (flash dataSource partial st).1 = inl e ∧
  calls (flash dataSource partial st).2
  = calls st ++ [CallDisconnectDap; CallConnectDap; CallParseBoardId raw].
Proof.
  intros Hdisconnect Hconnect Hraw Hparse.
  unfold flash, connection_disconnectDapAsync, connection_connectDapAsync, parse_boardId.
  unfold mbind, Conn_bind. simpl.
  rewrite Hdisconnect. simpl. rewrite Hconnect. simpl. rewrite Hraw, Hparse. simpl.
  by rewrite <- !app_assoc.
Qed.

(** X18: when the data source rejects, flash throws what it rejected with; the
    driver's flash operations are not called and no progress is reported. *)
Theorem flash_dataSource_failure dataSource (partial : bool) st d1 d2 raw boardId e :
  disconnectDapAsync (connection st) = (inr (), d1) →
  connectDapAsync d1 = (inr (), d2) →
  dapwrapper_boardId d2 = inr raw →
  BoardId_parse raw = inr boardId →
  dataSource boardId = inl e →
  (flash dataSource partial st).1 = inl e ∧
  calls (flash dataSource partial st).2
  = calls st ++ [ CallDisconnectDap; CallConnectDap; CallParseBoardId raw;
                  CallDataSource boardId ].
Proof.
  intros Hdisconnect Hconnect Hraw Hparse Hdata.
  unfold flash, connection_disconnectDapAsync, connection_connectDapAsync,
    parse_boardId, call_dataSource.
  unfold mbind, Conn_bind. simpl.
  rewrite Hdisconnect. simpl. rewrite Hconnect. simpl. rewrite Hraw, Hparse. simpl.
  rewrite Hdata. simpl. by rewrite <- !app_assoc.
Qed.

End FlashFailures.

(** ** More on the classifier *)

Lemma specialCases_get_enriched (e : Thrown) :
  specialCases_get (message (enrichedError e)) = None.
Proof.
  unfold enrichedError.
  generalize (message match e with
                      | ThrownError e => e
                      | ThrownValue text => new_Error (Some text)
                      end).
  intros m. destruct (specialCases_get m) as [[c | name] |] eqn:Hget; simpl.
  - unfold specialCases_get, specialCases in Hget.
    destruct (_ !! _) as [c' |] eqn:Hlookup; [| by destruct (decide _)].
    apply lookup_singleton_Some in Hlookup as [_ <-].
    injection Hget as <-. vm_compute. reflexivity.
  - vm_compute. reflexivity.
  - exact Hget.
Qed.

(** X20: classifying the result of the classifier keeps its message and gives the
    kind [UNKNOWN]: a second pass loses the kind
    [UNABLE_TO_CLAIM_INTERFACE]. *)
Theorem enrichedError_twice (e : Thrown) :
  enrichedError (ThrownError (enrichedError e))
  = {| message := message (enrichedError e); type := Some UNKNOWN |}.
Proof.
  unfold enrichedError at 1. cbv beta iota zeta.
  by rewrite specialCases_get_enriched.
Qed.

(** X21: the kind of the classified error is decided by the message alone: it is
    [UNABLE_TO_CLAIM_INTERFACE] exactly for "Unable to claim interface.",
    absent exactly for the property names of [Object.prototype], and
    [UNKNOWN] for every other message. *)
Theorem enrichedError_kind (e : Thrown) :
  (type (enrichedError e) = Some UNABLE_TO_CLAIM_INTERFACE
   ↔ thrown_message e = "Unable to claim interface.") ∧
  (type (enrichedError e) = None ↔ thrown_message e ∈ Object_prototype) ∧
  (type (enrichedError e) = Some UNKNOWN
   ↔ thrown_message e ≠ "Unable to claim interface." ∧ thrown_message e ∉ Object_prototype).
Proof.
  assert (Hown : "Unable to claim interface." ∉ Object_prototype).
  { intros Hin. by apply (bool_decide_pack _) in Hin. }
  assert (Hmessage : message match e with
                             | ThrownError e => e
                             | ThrownValue text => new_Error (Some text)
                             end = thrown_message e) by by destruct e.
  unfold enrichedError, specialCases_get, specialCases. rewrite Hmessage.
  destruct (decide (thrown_message e = "Unable to claim interface.")) as [-> | Hne].
  - rewrite lookup_singleton_eq. simpl. repeat split; try done.
    intros [? _]. done.
  - rewrite lookup_singleton_ne by done.
    destruct (decide (thrown_message e ∈ Object_prototype)) as [Hin | Hnotin]; simpl.
    + repeat split; try done. intros [_ ?]. done.
    + repeat split; try done.
Qed.

(** ** More on the device matcher *)

(** X23: no device matches an empty set of filters, every device matches a filter
    with neither field set, and a device matches the filters of two sets put
    together exactly when it matches one of the sets. *)
Theorem matchesDeviceFilter_sets (F1 F2 : list USBDeviceFilter) (device : USBDevice) :
  matchesDeviceFilter [] device = false ∧
  matchesDeviceFilter ({| filter_vendorId := None; filter_productId := None |} :: F1) device
  = true ∧
  matchesDeviceFilter (F1 ++ F2) device
  = matchesDeviceFilter F1 device || matchesDeviceFilter F2 device.
Proof.
  repeat split. unfold matchesDeviceFilter. apply existsb_app.
Qed.

(** ** Signature help *)

Section SignatureHelpFacts.
Import SignatureHelp.
Context {C Doc R : Type}.

(** X24: the three parts of a label are cut at the two offsets, clamped to the
    label: with [from] at most [to], the parts put together are the label. *)
Theorem label_parts_concat (label : list C) (from to : Z) :
  from ≤ to →
  let '(before, parameter, after) := label_parts label from to in
  before ++ parameter ++ after = label.
Proof.
  intros Hle. unfold label_parts, substring.
  set (len := Z.of_nat (length label)).
  set (f := Z.min (Z.max from 0) len).
  set (t := Z.min (Z.max to 0) len).
  assert (Hlen : 0 ≤ len) by (unfold len; lia).
  assert (Hf : 0 ≤ f ≤ t) by (unfold f, t; lia).
  assert (Ht : t ≤ len) by (unfold t; lia).
  replace (Z.min (Z.max 0 0) len) with 0 by lia.
  rewrite (Z.min_l 0 f), (Z.max_r 0 f), (Z.min_l f t), (Z.max_r f t),
    (Z.min_l t len), (Z.max_r t len) by lia.
  rewrite Z.sub_0_r. simpl drop.
  replace (take (Z.to_nat (len - t)) (drop (Z.to_nat t) label))
    with (drop (Z.to_nat t) label).
  2: { symmetry. apply take_ge. rewrite length_drop. unfold len. lia. }
  replace (Z.to_nat t) with (Z.to_nat f + Z.to_nat (t - f))%nat by lia.
  rewrite <- drop_drop, take_drop. change (Z.to_nat 0) with 0%nat. apply take_drop.
Qed.

(** X25: with no offsets to highlight, [formatSignatureHelp] passes the length of
    the label for both: the whole label comes before an empty parameter. *)
Theorem label_parts_at_end (label : list C) :
  let len := Z.of_nat (length label) in
  label_parts label len len = (label, [], []).
Proof.
  intros len. unfold label_parts, substring. fold len.
  assert (Hlen : 0 ≤ len) by (unfold len; lia).
  replace (Z.max 0 0) with 0 by lia.
  replace (Z.max len 0) with len by lia.
  rewrite !Z.min_id, !Z.max_id.
  repeat replace (Z.min 0 len) with 0 by lia.
  replace (Z.max 0 len) with len by lia.
  rewrite Z.sub_0_r, Z.sub_diag. change (Z.to_nat 0) with 0%nat.
  rewrite take_0, drop_0. rewrite take_ge by (unfold len; lia). done.
Qed.

(** X26: [formatSignatureHelp] throws a [TypeError] exactly when the active index,
    or 0 when it is [null], is outside the signatures; so it does on a help
    without signatures. *)
Theorem formatSignatureHelp_TypeError (help : SignatureHelp C Doc) :
  formatSignatureHelp help = ThrowsTypeError ↔
  array_get (signatures help) (default 0 (activeSignature help)) = None.
Proof.
  unfold formatSignatureHelp.
  replace (match activeSignature help with
           | Some i => array_get (signatures help) i
           | None => array_get (signatures help) 0
           end) with (array_get (signatures help) (default 0 (activeSignature help)))
    by by destruct (activeSignature help).
  destruct (array_get _ _) as [signature |]; [| done].
  split; [| done].
  destruct (activeParameter signature), (parameters signature); simpl; try done.
  destruct (array_get _ _) as [[[? | ? ?] ?] |]; done.
Qed.

(** X27: when the active signature has no active parameter, or no parameters, or
    an active parameter index outside its parameters, nothing is
    highlighted: the offsets passed on are both the length of the label, and
    no parameter documentation is passed. *)
Theorem formatSignatureHelp_no_parameter
    (help : SignatureHelp C Doc) (signature : SignatureInformation C Doc) :
  array_get (signatures help) (default 0 (activeSignature help)) = Some signature →
  (∀ index ps, activeParameter signature = Some index →
               parameters signature = Some ps → array_get ps index = None) →
  formatSignatureHelp help
  = Highlighted (label signature)
      (Z.of_nat (length (label signature))) (Z.of_nat (length (label signature)))
      (documentation signature) None.
Proof.
  intros Hsignature Hnone. unfold formatSignatureHelp.
  replace (match activeSignature help with
           | Some i => array_get (signatures help) i
           | None => array_get (signatures help) 0
           end) with (array_get (signatures help) (default 0 (activeSignature help)))
    by by destruct (activeSignature help).
  rewrite Hsignature.
  destruct (activeParameter signature) as [index |], (parameters signature) as [ps |];
    try done.
  by rewrite (Hnone index ps).
Qed.

(** X28: an active parameter whose label is a string, not a pair of offsets, makes
    [formatSignatureHelp] throw "Not supported"; one whose label is a pair of
    offsets has these offsets and its documentation passed on. *)
Theorem formatSignatureHelp_parameter
    (help : SignatureHelp C Doc) (signature : SignatureInformation C Doc)
    (index : Z) (ps : list (ParameterInformation C Doc)) (p : ParameterInformation C Doc) :
  array_get (signatures help) (default 0 (activeSignature help)) = Some signature →
  activeParameter signature = Some index →
  parameters signature = Some ps →
  array_get ps index = Some p →
  formatSignatureHelp help
  = match parameter_label p with
    | LabelString _ => ThrowsNotSupported
    | LabelOffsets from to =>
        Highlighted (label signature) from to (documentation signature)
                    (parameter_documentation p)
    end.
Proof.
  intros Hsignature Hindex Hps Hp. unfold formatSignatureHelp.
  replace (match activeSignature help with
           | Some i => array_get (signatures help) i
           | None => array_get (signatures help) 0
           end) with (array_get (signatures help) (default 0 (activeSignature help)))
    by by destruct (activeSignature help).
  rewrite Hsignature, Hindex, Hps, Hp. simpl.
  by destruct (parameter_label p).
Qed.

Lemma reduce_coherent (state : SignatureHelpState R) (effect : SignatureChangeEffect R) :
  coherent state → coherent (reduceSignatureHelpState state effect).
Proof.
  unfold coherent, reduceSignatureHelpState.
  destruct state as [[tooltip |] [result |]], effect as [pos [result' |]]; simpl;
    tauto.
Qed.

Lemma update_coherent (state : SignatureHelpState R) (effects : list (Effect R)) :
  coherent state → coherent (update state effects).
Proof.
  intros Hstate. induction effects as [| [value |] effects IH]; simpl; try done.
  by apply reduce_coherent.
Qed.

Lemma updates_coherent (state : SignatureHelpState R) (transactions : list (list (Effect R))) :
  coherent state → coherent (updates state transactions).
Proof.
  revert state. induction transactions as [| effects transactions IH]; intros state Hstate;
    [done |].
  simpl. apply IH. by apply update_coherent.
Qed.

(** X29: after any sequence of transactions on the field as created, the tooltip
    is present exactly when a result is held, and it shows that result above
    the position. *)
Theorem signatureHelp_state_coherent (transactions : list (list (Effect R))) :
  coherent (updates (create (H:=R)) transactions).
Proof. by apply updates_coherent. Qed.


End SignatureHelpFacts.

(** ** Further runs on the sample collaborators *)

Lemma connect_success_witness :
  connect INTERACTIVE (connection_in NOT_CONNECTED working)
  = (inr CONNECTED,
     add_emitted (EVENT_STATUS, StatusPayload CONNECTED)
       (set_status CONNECTED
          (set_connection working
             (add_calls [CallConnectDap] (connection_in NOT_CONNECTED working))))).
Proof.
  apply (connect_success INTERACTIVE (connection_in NOT_CONNECTED working) working).
  - simpl. eexists. reflexivity.
  - reflexivity.
Defined.

Lemma connect_failure_witness :
  let st := connection_in NOT_CONNECTED (refusing claimed) in
  status (connect INTERACTIVE st).2 = status st ∧
  emitted (connect INTERACTIVE st).2 = emitted st ∧
  ∃ raw, ThrownError (enrichedError claimed) = ThrownError (enrichedError raw).
Proof.
  apply (connect_failure INTERACTIVE (connection_in NOT_CONNECTED (refusing claimed))).
  vm_compute. reflexivity.
Defined.

Lemma initialize_without_device_witness :
  initialize (paired_connection [microbit; other_device] working no_options)
  = (inr (), paired_connection [microbit; other_device] working no_options).
Proof.
  apply (initialize_without_device
           (paired_connection [microbit; other_device] working no_options)).
  intros paired [= <-]. vm_compute. lia.
Defined.

Lemma initialize_without_autoConnect_witness :
  let st := paired_connection [foreign_device; microbit] working no_autoConnect in
  initialize st
  = (inr (), add_emitted (EVENT_STATUS, StatusPayload NOT_CONNECTED)
               (set_status NOT_CONNECTED st)).
Proof.
  apply (initialize_without_autoConnect
           (paired_connection [foreign_device; microbit] working no_autoConnect)
           [foreign_device; microbit] microbit); reflexivity.
Defined.

Lemma initialize_autoconnect_success_witness :
  let st := paired_connection [microbit] working no_options in
  status (initialize st).2 = CONNECTED ∧
  emitted (initialize st).2
  = emitted st ++ [ (EVENT_STATUS, StatusPayload NOT_CONNECTED);
                    (EVENT_STATUS, StatusPayload CONNECTED) ].
Proof.
  apply (initialize_autoconnect_success
           (paired_connection [microbit] working no_options) [microbit] microbit working);
    reflexivity.
Defined.

Lemma initialize_autoconnect_failure_witness :
  let st := paired_connection [microbit] (refusing claimed) no_options in
  (initialize st).1 = inr () ∧
  status (initialize st).2 = NOT_CONNECTED ∧
  emitted (initialize st).2
  = emitted st ++ [ (EVENT_STATUS, StatusPayload NOT_CONNECTED);
                    (EVENT_AUTOCONNECT_ERROR,
                     ErrorPayload (ThrownError (enrichedError claimed))) ].
Proof.
  apply (initialize_autoconnect_failure
           (paired_connection [microbit] (refusing claimed) no_options)
           [microbit] microbit (refusing claimed) claimed);
    reflexivity.
Defined.

Lemma handleConnect_ignored_witness :
  handleConnect foreign_device (connection_in NO_AUTHORIZED_DEVICE working)
  = (inr (), connection_in NO_AUTHORIZED_DEVICE working).
Proof.
  apply (handleConnect_ignored foreign_device (connection_in NO_AUTHORIZED_DEVICE working)).
  left. reflexivity.
Defined.

Lemma handleConnect_autoconnect_success_witness :
  let st := connection_in NO_AUTHORIZED_DEVICE working in
  status (handleConnect microbit st).2 = CONNECTED ∧
  emitted (handleConnect microbit st).2
  = emitted st ++ [ (EVENT_STATUS, StatusPayload NOT_CONNECTED);
                    (EVENT_STATUS, StatusPayload CONNECTED) ].
Proof.
  apply (handleConnect_autoconnect_success microbit
           (connection_in NO_AUTHORIZED_DEVICE working) working);
    try reflexivity.
  simpl. eexists. reflexivity.
Defined.

Lemma handleDisconnect_status_witness :
  let st := connection_in CONNECTED working in
  handleDisconnect microbit st
  = (inr (), add_emitted (EVENT_STATUS, StatusPayload NO_AUTHORIZED_DEVICE)
               (set_status NO_AUTHORIZED_DEVICE st)) ∧
  handleDisconnect other_device st = (inr (), st).
Proof.
  split.
  - apply (proj1 (handleDisconnect_status microbit (connection_in CONNECTED working))).
    reflexivity.
  - apply (proj2 (handleDisconnect_status other_device (connection_in CONNECTED working))).
    simpl. discriminate.
Defined.

Lemma connect_then_disconnect_witness :
  let st := connection_in NOT_CONNECTED working in
  let st' := (disconnect (connect NON_INTERACTIVE st).2).2 in
  status st' = NOT_CONNECTED ∧
  emitted st' = emitted st ++ [ (EVENT_STATUS, StatusPayload CONNECTED);
                                (EVENT_STATUS, StatusPayload NOT_CONNECTED) ] ∧
  calls st' = calls st ++ [CallConnectDap; CallDisconnectDap].
Proof.
  apply (connect_then_disconnect NON_INTERACTIVE
           (connection_in NOT_CONNECTED working) working working);
    try reflexivity.
  simpl. eexists. reflexivity.
Defined.

Lemma flash_teardown_failure_witness :
  let st := connection_in CONNECTED (stuck claimed) in
  flash sample_dataSource true st
  = (inl claimed, set_connection (stuck claimed) (add_calls [CallDisconnectDap] st)).
Proof.
  apply (flash_teardown_failure sample_dataSource true
           (connection_in CONNECTED (stuck claimed)) (stuck claimed) claimed).
  reflexivity.
Defined.

Lemma flash_parse_failure_witness :
  let st := connection_in CONNECTED unidentified in
  (flash sample_dataSource false st).1
  = inl (ThrownError (new_Error (Some "Could not parse board ID"))) ∧
  calls (flash sample_dataSource false st).2
  = calls st ++ [CallDisconnectDap; CallConnectDap; CallParseBoardId ""].
Proof.
  apply (flash_parse_failure sample_dataSource false
           (connection_in CONNECTED unidentified) unidentified unidentified);
    reflexivity.
Defined.

Lemma flash_dataSource_failure_witness :
  let st := connection_in CONNECTED working in
  (flash failing_dataSource true st).1 = inl (ThrownValue "fetch failed") ∧
  calls (flash failing_dataSource true st).2
  = calls st ++ [ CallDisconnectDap; CallConnectDap; CallParseBoardId "9904";
                  CallDataSource "9904" ].
Proof.
  apply (flash_dataSource_failure failing_dataSource true
           (connection_in CONNECTED working) working working);
    reflexivity.
Defined.

Lemma flash_failure_no_terminal_call_witness :
  let st := connection_in CONNECTED (failing_flash claimed) in
  ∃ cs, calls (flash sample_dataSource true st).2 = calls st ++ cs ∧
        terminal_calls cs = 0%nat.
Proof.
  apply (flash_failure_no_terminal_call sample_dataSource true
           (connection_in CONNECTED (failing_flash claimed)) _ claimed).
  vm_compute. reflexivity.
Defined.

Lemma enrichedError_unknown_witness :
  enrichedError (ThrownError {| message := "Device not found"; type := None |})
  = {| message := "Device not found"; type := Some UNKNOWN |}.
Proof.
  apply (enrichedError_unknown {| message := "Device not found"; type := None |}).
  - simpl. discriminate.
  - apply (bool_decide_unpack _). vm_compute. exact I.
Defined.

Lemma label_parts_concat_witness :
  let '(before, parameter, after) :=
    SignatureHelp.label_parts (String.list_ascii_of_string "f(a, b)") 5 6 in
  before ++ parameter ++ after = String.list_ascii_of_string "f(a, b)".
Proof.
  apply (label_parts_concat (String.list_ascii_of_string "f(a, b)") 5 6). lia.
Defined.

Lemma formatSignatureHelp_no_parameter_witness :
  SignatureHelp.formatSignatureHelp bare_help
  = SignatureHelp.Highlighted (String.list_ascii_of_string "f(a, b)") 7 7 (Some "adds") None.
Proof.
  apply (formatSignatureHelp_no_parameter bare_help bare_signature).
  - reflexivity.
  - intros index ps Hindex. discriminate Hindex.
Defined.

Lemma formatSignatureHelp_parameter_witness :
  SignatureHelp.formatSignatureHelp sample_help
  = SignatureHelp.Highlighted (String.list_ascii_of_string "f(a, b)") 5 6
      (Some "adds") (Some "the second").
Proof.
  apply (formatSignatureHelp_parameter sample_help sample_signature 1
           (default [] (SignatureHelp.parameters sample_signature))
           {| SignatureHelp.parameter_label := SignatureHelp.LabelOffsets 5 6;
              SignatureHelp.parameter_documentation := Some "the second" |});
    reflexivity.
Defined.

(** With the offsets the wrong way round, [substring] swaps them: the parts
    put together are not the label. *)
Example label_parts_swapped :
  SignatureHelp.label_parts (String.list_ascii_of_string "f(a, b)") 6 5
  = (String.list_ascii_of_string "f(a, b", String.list_ascii_of_string "b", String.list_ascii_of_string "b)").
Proof. vm_compute. reflexivity. Qed.
